(** * Signal sampling experiment: a shallow embedding and its properties

    The development follows [signal_sampling_experiment.py]:

    - [generate_signal]: the two-tone test signal;
    - [analyze_spectrum]: the one-sided, normalised magnitude spectrum;
    - [Session.update_plot], [Session.on_key]: the interactive session.

    Floating-point arrays are idealised as lists of real numbers, Python
    integers are [Z], and the exceptions Python can raise are made explicit
    in the [result] type.  The limits of the machine (the range of a float,
    memory) are outside this idealisation. *)

From Stdlib Require Import Reals Lra Lia ZArith List String Ascii Bool.
From Stdlib Require Import DecimalString.
From Stdlib Require DecimalZ DecimalPos.
Import ListNotations.

(** ** Python values and exceptions *)

Module Py.

Inductive error : Type :=
| ValueError
| ZeroDivisionError
| IndexError.

Inductive result (A : Type) : Type :=
| Ok (a : A)
| Raise (e : error).

Arguments Ok {A} a.
Arguments Raise {A} e.

Definition bind {A B : Type} (m : result A) (k : A -> result B) : result B :=
  match m with
  | Ok a => k a
  | Raise e => Raise e
  end.

(** [str(z)] for a Python integer, as an f-string field prints it. *)
Definition str_int (z : Z) : string := NilZero.string_of_int (Z.to_int z).

(** Scalar true division [a / b] of Python numbers. *)
Definition div (a b : R) : result R :=
  if Req_dec_T b 0 then Raise ZeroDivisionError else Ok (a / b)%R.

(** One bound of a slice with step 1 on a sequence of length [len]:
    a negative index counts from the end, and the result is clamped to
    [0 .. len]. *)
Definition adjust_index (len i : Z) : Z :=
  if (i <? 0)%Z then Z.max 0 (i + len) else Z.min i len.

(** The bounds of [l[start:stop]]; an omitted bound is [None]. *)
Definition slice_bounds (start stop : option Z) (len : nat) : nat * nat :=
  let n := Z.of_nat len in
  (Z.to_nat (match start with None => 0%Z | Some a => adjust_index n a end),
   Z.to_nat (match stop with None => n | Some b => adjust_index n b end)).

(** [l[start:stop]] *)
Definition slice {A : Type} (start stop : option Z) (l : list A) : list A :=
  let '(lo, hi) := slice_bounds start stop (List.length l) in
  firstn (hi - lo) (skipn lo l).

(** [l[start:stop] = vals] on an array, where [vals] has the length of
    the slice (as it has at both uses below, where it is computed from
    that very slice). *)
Definition set_slice {A : Type} (start stop : option Z) (vals l : list A)
  : list A :=
  let '(lo, hi) := slice_bounds start stop (List.length l) in
  firstn lo l ++ vals ++ skipn (lo + (hi - lo)) l.

(** [l[-1]] *)
Definition last_item {A : Type} (l : list A) : result A :=
  match rev l with
  | [] => Raise IndexError
  | x :: _ => Ok x
  end.

End Py.

Import Py.

Notation "x <- m ;; k" := (Py.bind m (fun x => k))
  (at level 61, m at next level, right associativity).

(** ** The numeric libraries, by their documented behaviour *)

Module Np.

(** Complex numbers as pairs (real part, imaginary part). *)
Definition C : Type := (R * R)%type.

Definition Cplus (a b : C) : C := (fst a + fst b, snd a + snd b)%R.

(** [np.abs] on a complex number. *)
Definition Cabs (z : C) : R := sqrt (fst z * fst z + snd z * snd z).

(** [np.arange(N)]: the integers [0 .. N-1], empty when [N <= 0]. *)
Definition arange (N : Z) : list R :=
  map (fun i => IZR (Z.of_nat i)) (seq 0 (Z.to_nat N)).

(** [x[n] * exp(-2 pi i k n / N)] *)
Definition dft_term (N k n : nat) (xn : R) : C :=
  let theta := (2 * PI * INR k * INR n / INR N)%R in
  (xn * cos theta, - (xn * sin theta))%R.

(** The sum over the samples [x[n], x[n+1], ...] of the terms of bin [k]. *)
Fixpoint dft_sum (N k n : nat) (x : list R) : C :=
  match x with
  | [] => (0, 0)%R
  | xn :: rest => Cplus (dft_term N k n xn) (dft_sum N k (S n) rest)
  end.

(** [scipy.fft.fft] on a one-dimensional real array: the discrete
    Fourier transform, one bin per sample; an empty array is rejected
    ("invalid number of data points (0) specified"). *)
Definition fft (x : list R) : result (list C) :=
  match x with
  | [] => Raise ValueError
  | _ :: _ =>
      let N := List.length x in
      Ok (map (fun k => dft_sum N k 0 x) (seq 0 N))
  end.

(** The integers [a, a+1, ..., a+len-1]. *)
Definition zrange (a : Z) (len : nat) : list Z :=
  map (fun i => (a + Z.of_nat i)%Z) (seq 0 len).

(** [scipy.fft.fftfreq(n, d)]: [val = 1.0 / (n * d)], then the bin
    numbers [0, 1, ..., (n-1)//2, -(n//2), ..., -1] times [val]. *)
Definition fftfreq (n : Z) (d : R) : result (list R) :=
  val <- Py.div 1 (IZR n * d) ;;
  if (n <? 0)%Z then Raise ValueError
  else
    let N := ((n - 1) / 2 + 1)%Z in
    let results := zrange 0 (Z.to_nat N) ++ zrange (- (n / 2)) (Z.to_nat (n / 2)) in
    Ok (map (fun i => (IZR i * val)%R) results).

End Np.

Import Np.

(** ** The signal *)

Definition f1 : Z := 1000.
Definition f2 : Z := 1100.
Definition phase : R := (PI / 4)%R.

Definition generate_signal (t : list R) : list R :=
  map (fun x => (cos (2 * PI * IZR f1 * x + phase) + cos (2 * PI * IZR f2 * x))%R) t.

(** ** Plotting calls that can refuse their data *)

(** [ax.plot(x, y)]: the two arrays must have one length. *)
Definition plot (x y : list R) : result unit :=
  if (List.length x =? List.length y)%nat then Ok tt else Raise ValueError.

(** [ax.stem(x, y)]: besides arrays of two lengths, arrays with no item
    are refused (the baseline is sought as the minimum of [y]). *)
Definition stem (x y : list R) : result unit :=
  if negb (List.length x =? List.length y)%nat then Raise ValueError
  else match x with
       | [] => Raise ValueError
       | _ :: _ => Ok tt
       end.

(** Whether no item is greater than the next one. *)
Fixpoint nondecreasing (x : list R) : bool :=
  match x with
  | a :: rest =>
      match rest with
      | b :: _ => (if Rle_dec a b then true else false) && nondecreasing rest
      | [] => true
      end
  | [] => true
  end.

(** How the curve over the stems is fitted, by the number of bins: no
    curve up to 3 bins, quadratic interpolation up to 10, a smoothing
    spline above. *)
Inductive fit : Type :=
| NoFit
| QuadraticInterp
| SplineFit.

Definition fit_method (freqs : list R) : fit :=
  if (3 <? List.length freqs)%nat then
    if (10 <? List.length freqs)%nat then SplineFit else QuadraticInterp
  else NoFit.

(** The [if len(freqs) > 3:] block, reached after [stem] with arrays of one
    length.  [splrep] with a positive smoothing factor refuses abscissae
    that are not in increasing order ("Error on input data"); [interp1d]
    sorts them itself.  The values of the curve are left out: what is kept
    is which fit is made and whether it can be made. *)
Definition fit_curve (freqs magnitude : list R) : result fit :=
  match fit_method freqs with
  | NoFit => Ok NoFit
  | QuadraticInterp => Ok QuadraticInterp
  | SplineFit =>
      if nondecreasing freqs then Ok SplineFit else Raise ValueError
  end.

(** ** The spectrum analyzer *)

(** The arrays both analyses compute before anything is drawn. *)
Record arrays : Type := {
  arr_t : list R;
  arr_sampled_signal : list R;
  arr_freqs : list R;
  arr_magnitude : list R
}.

(** What a figure shows, as far as the analysis decides it: the sampled
    signal against time, the stems of the spectrum, the two titles and the
    upper limit of the frequency axis.  The fitted curve drawn over the stems
    is a presentation aid computed from [fig_freqs] and [fig_magnitude] and is
    left out. *)
Record figure : Type := {
  fig_t : list R;
  fig_sampled_signal : list R;
  fig_freqs : list R;
  fig_magnitude : list R;
  fig_title_time : string;
  fig_title_freq : string;
  fig_x_max : R
}.

(** The first part of [analyze_spectrum], up to the frequency axis: the
    sample times, the samples, the one-sided magnitudes and their
    frequencies. *)
Definition analyze_spectrum_arrays (signal : list R -> list R) (fs : R) (N : Z)
  : result arrays :=
  let t := map (fun x => (x / fs)%R) (arange N) in
  let sampled_signal := signal t in
  spectrum <- fft sampled_signal ;;
  let magnitude := map (fun z => (Cabs z / IZR N)%R) spectrum in
  let magnitude := slice None (Some (N / 2)%Z) magnitude in
  let magnitude :=
    set_slice (Some 1%Z) (Some (-1)%Z)
      (map (fun m => (2 * m)%R) (slice (Some 1%Z) (Some (-1)%Z) magnitude))
      magnitude in
  d <- Py.div 1 fs ;;
  all_freqs <- fftfreq N d ;;
  let freqs := slice None (Some (N / 2)%Z) all_freqs in
  Ok {| arr_t := t;
        arr_sampled_signal := sampled_signal;
        arr_freqs := freqs;
        arr_magnitude := magnitude |}.

(** [analyze_spectrum]: the arrays, then the drawing; of the drawing, the
    calls that can refuse the arrays, in their order. *)
Definition analyze_spectrum (signal : list R -> list R) (fs : R) (N : Z)
    (title : string) : result figure :=
  a <- analyze_spectrum_arrays signal fs N ;;
  _ <- plot (arr_t a) (arr_sampled_signal a) ;;
  _ <- stem (arr_freqs a) (arr_magnitude a) ;;
  _ <- fit_curve (arr_freqs a) (arr_magnitude a) ;;
  Ok {| fig_t := arr_t a;
        fig_sampled_signal := arr_sampled_signal a;
        fig_freqs := arr_freqs a;
        fig_magnitude := arr_magnitude a;
        fig_title_time := ("Time Domain - " ++ title)%string;
        fig_title_freq := ("Frequency Domain - " ++ title)%string;
        fig_x_max := Rmin (2 * IZR f2) (fs / 2) |}.

(** ** The interactive session *)

Module Session.

Definition fs_init : Z := 4000.
Definition N_init : Z := 1000.
Definition fs_step : Z := 500.
Definition N_step : Z := 100.

(** The two variables the nested functions share. *)
Record session : Type := {
  fs_current : Z;
  N_current : Z
}.

Definition session_init : session :=
  {| fs_current := fs_init; N_current := N_init |}.

(** What [update_plot] puts on the two axes.  As for [figure], the fitted
    curve is left out. *)
Record view : Type := {
  view_t : list R;
  view_sampled_signal : list R;
  view_sample_points_visible : bool;
  view_time_xlim : R * R;
  view_freqs : list R;
  view_magnitude : list R;
  view_x_max : R;
  view_title_status : string;
  view_title_time : string;
  view_title_freq : string
}.

Definition title_status (fs : Z) : string :=
  if (fs <? 2 * f2)%Z then "Undersampling" else "Proper Sampling".

(** The first part of [update_plot], up to the frequency axis. *)
Definition update_plot_arrays (s : session) : result arrays :=
  let fs := fs_current s in
  let N := N_current s in
  let t := map (fun x => (x / IZR fs)%R) (arange N) in
  let sampled_signal := generate_signal t in
  spectrum <- fft sampled_signal ;;
  let half_point := (N / 2)%Z in
  let magnitude :=
    map (fun z => (Cabs z / IZR N)%R) (slice None (Some half_point) spectrum) in
  let magnitude :=
    set_slice (Some 1%Z) (Some (half_point - 1)%Z)
      (map (fun m => (m * 2)%R)
           (slice (Some 1%Z) (Some (half_point - 1)%Z) magnitude))
      magnitude in
  d <- Py.div 1 (IZR fs) ;;
  all_freqs <- fftfreq N d ;;
  let freqs := slice None (Some half_point) all_freqs in
  Ok {| arr_t := t;
        arr_sampled_signal := sampled_signal;
        arr_freqs := freqs;
        arr_magnitude := magnitude |}.

(** [update_plot]: the arrays, then the drawing; of the drawing, the calls
    that can refuse the arrays, in their order, and the titles. *)
Definition update_plot (s : session) : result view :=
  let fs := fs_current s in
  let N := N_current s in
  a <- update_plot_arrays s ;;
  t_last <- last_item (arr_t a) ;;
  _ <- stem (arr_freqs a) (arr_magnitude a) ;;
  _ <- fit_curve (arr_freqs a) (arr_magnitude a) ;;
  let status := title_status fs in
  let params :=
    (": Fs=" ++ str_int fs ++ "Hz, N=" ++ str_int N)%string in
  Ok {| view_t := arr_t a;
        view_sampled_signal := arr_sampled_signal a;
        view_sample_points_visible := (N <=? 100)%Z;
        view_time_xlim := (0%R, t_last);
        view_freqs := arr_freqs a;
        view_magnitude := arr_magnitude a;
        view_x_max := Rmin (2 * IZR f2) (IZR fs / 2);
        view_title_status := status;
        view_title_time := ("Time Domain - " ++ status ++ params)%string;
        view_title_freq := ("Frequency Domain - " ++ status ++ params)%string |}.

(** What a key event does besides changing the two variables, in order. *)
Inductive effect : Type :=
| Printed (line : string)
| SaveFig (filename : string) (dpi : Z)
| CloseFig
| UpdatePlot (outcome : result view).
    (** [update_plot()] ran: the recomputation and the redraw, or the
        exception that left it. *)

(** [event.key == name]; the key of an event is a string or [None]. *)
Definition key_is (event_key : option string) (name : string) : bool :=
  match event_key with
  | Some k => String.eqb k name
  | None => false
  end.

Definition on_key (event_key : option string) (s : session)
  : session * list effect :=
  if key_is event_key "up" then
    let s := {| fs_current := fs_current s + fs_step;
                N_current := N_current s |} in
    (s, [Printed ("Sampling frequency increased to: "
                    ++ str_int (fs_current s) ++ "Hz")%string;
         UpdatePlot (update_plot s)])
  else if key_is event_key "down" && (fs_current s >? fs_step)%Z then
    let s := {| fs_current := fs_current s - fs_step;
                N_current := N_current s |} in
    (s, [Printed ("Sampling frequency decreased to: "
                    ++ str_int (fs_current s) ++ "Hz")%string;
         UpdatePlot (update_plot s)])
  else if key_is event_key "right" then
    let s := {| fs_current := fs_current s;
                N_current := N_current s + N_step |} in
    (s, [Printed ("Sample count increased to: "
                    ++ str_int (N_current s))%string;
         UpdatePlot (update_plot s)])
  else if key_is event_key "left" && (N_current s >? N_step)%Z then
    let s := {| fs_current := fs_current s;
                N_current := N_current s - N_step |} in
    (s, [Printed ("Sample count decreased to: "
                    ++ str_int (N_current s))%string;
         UpdatePlot (update_plot s)])
  else if key_is event_key "s" then
    let filename :=
      ("experiment_fs_" ++ str_int (fs_current s)
         ++ "_N_" ++ str_int (N_current s) ++ ".png")%string in
    (s, [SaveFig filename 150;
         Printed ("Image saved as: " ++ filename)%string;
         UpdatePlot (update_plot s)])
  else if key_is event_key "q" then
    (s, [CloseFig])
  else
    (s, []).

(** The session: the first drawing, then one call of [on_key] per key
    event until the figure is closed. *)
Fixpoint handle_events (events : list (option string)) (s : session)
  : session * list effect :=
  match events with
  | [] => (s, [])
  | k :: rest =>
      let '(s1, out1) := on_key k s in
      if key_is k "q" then (s1, out1)
      else
        let '(s2, out2) := handle_events rest s1 in
        (s2, out1 ++ out2)
  end.

Definition interactive_experiment (events : list (option string))
  : session * list effect :=
  let '(s, out) := handle_events events session_init in
  (s, UpdatePlot (update_plot session_init) :: out).

(** The states the session can be in: the initial one, and the one after
    any key event in a state it can be in. *)
Inductive reachable : session -> Prop :=
| reachable_init : reachable session_init
| reachable_key (k : option string) (s : session) :
    reachable s -> reachable (fst (on_key k s)).

(** Whether [update_plot] ran among the effects of a handler. *)
Definition is_update_plot (e : effect) : bool :=
  match e with
  | UpdatePlot _ => true
  | _ => false
  end.

Definition redraws (out : list effect) : bool := existsb is_update_plot out.

(** Whether a handler wrote a file. *)
Definition is_save (e : effect) : bool :=
  match e with
  | SaveFig _ _ => true
  | _ => false
  end.

Definition writes_file (out : list effect) : bool := existsb is_save out.

End Session.

Import Session.

(** ** Reference notions the statements use *)

(** Bin [k] of the samples [x] after the transform and the division by the
    sample count, before any doubling. *)
Definition normalized_magnitude (x : list R) (N : Z) (k : nat) : R :=
  (Cabs (dft_sum (List.length x) k 0 x) / IZR N)%R.

(** All bins of the transform of a non-empty [x]. *)
Definition dft (x : list R) : list C :=
  map (fun k => dft_sum (List.length x) k 0 x) (seq 0 (List.length x)).

(** The sample times [np.arange(N) / fs]. *)
Definition sample_times (fs : R) (N : Z) : list R :=
  map (fun x => (x / fs)%R) (arange N).

(** A unit impulse at time zero, as a signal: 1 where [t == 0], else 0. *)
Definition impulse (t : list R) : list R :=
  map (fun x => if Req_dec_T x 0 then 1%R else 0%R) t.

(** [f] applied to the [n] items of [l] from index [lo] on, the rest kept:
    what assigning [map f] of a slice back to that slice does. *)
Definition on_range {A : Type} (f : A -> A) (lo n : nat) (l : list A) : list A :=
  firstn lo l ++ map f (firstn n (skipn lo l)) ++ skipn (lo + n) l.

(** The doubling rule of the contract: every retained bin except index 0
    and, for an even sample count, the last retained one. *)
Definition doubled_by_contract (N : Z) (k : nat) : bool :=
  negb (k =? 0)%nat && negb (Z.even N && (Z.of_nat k =? N / 2 - 1)%Z).

(** The rule the slice [1:-1] of the retained bins implements: every
    retained bin except index 0 and the last retained one. *)
Definition doubled_by_slice (N : Z) (k : nat) : bool :=
  (1 <=? k)%nat && (k <? Z.to_nat (N / 2) - 1)%nat.

(** The keys [on_key] tests for. *)
Definition recognized_keys : list string :=
  ["up"; "down"; "right"; "left"; "s"; "q"]%string.

(** ** The rest of the plotting code, and the fixed experiments *)

(** The limits [update_plot] sets on the amplitude axis. *)
Definition time_ylim : R * R := ((-2.5)%R, 2.5%R).

(** The name the save key gives the image file. *)
Definition save_filename (fs N : Z) : string :=
  ("experiment_fs_" ++ str_int fs ++ "_N_" ++ str_int N ++ ".png")%string.

(** Neither of the two delimiters of a file name: a decimal numeral holds
    digits and a sign only. *)
Definition numeral_char (c : ascii) : bool :=
  negb (Ascii.eqb c "_") && negb (Ascii.eqb c ".").

(** Whether every character of a string passes a test. *)
Fixpoint string_forall (p : ascii -> bool) (s : string) : bool :=
  match s with
  | EmptyString => true
  | String c rest => p c && string_forall p rest
  end.

(** A [for] loop whose body may raise: the results in order, or the first
    exception. *)
Fixpoint for_each {A B : Type} (body : A -> result B) (l : list A)
  : result (list B) :=
  match l with
  | [] => Ok []
  | a :: rest =>
      b <- body a ;;
      bs <- for_each body rest ;;
      Ok (b :: bs)
  end.

(** [run_standard_experiment]: the three loops, each analysis followed by
    [savefig] under the name paired here with the figure. *)
Definition run_standard_experiment : result (list (string * figure)) :=
  let sampling_frequencies := [2500; 4000; 8000]%Z in
  let N := 1000%Z in
  figures1 <-
    for_each
      (fun fs =>
         let title :=
           ("采样频率=" ++ str_int fs ++ "Hz, 采样点数=" ++ str_int N)%string in
         fig <- analyze_spectrum generate_signal (IZR fs) N title ;;
         Ok (("experiment_fs_" ++ str_int fs ++ "_N_" ++ str_int N
                ++ ".png")%string, fig))
      sampling_frequencies ;;
  let fs := 4000%Z in
  let sample_sizes := [100; 500; 2000]%Z in
  figures2 <-
    for_each
      (fun N =>
         let title :=
           ("采样频率=" ++ str_int fs ++ "Hz, 采样点数=" ++ str_int N)%string in
         fig <- analyze_spectrum generate_signal (IZR fs) N title ;;
         Ok (("experiment_fs_" ++ str_int fs ++ "_N_" ++ str_int N
                ++ ".png")%string, fig))
      sample_sizes ;;
  let fs_undersampling := [1500; 1800]%Z in
  let N := 1000%Z in
  figures3 <-
    for_each
      (fun fs =>
         let title :=
           ("欠采样: 采样频率=" ++ str_int fs ++ "Hz, 采样点数="
              ++ str_int N)%string in
         fig <- analyze_spectrum generate_signal (IZR fs) N title ;;
         Ok (("experiment_undersampling_fs_" ++ str_int fs ++ "_N_"
                ++ str_int N ++ ".png")%string, fig))
      fs_undersampling ;;
  Ok (figures1 ++ figures2 ++ figures3).

(** * Properties *)

(** ** Slices *)

Section Slices.

Context {A : Type}.
Implicit Types (l : list A) (f : A -> A).

Lemma on_range_length f lo n l :
  List.length (on_range f lo n l) = List.length l.
Proof.
  unfold on_range.
  rewrite !length_app, length_map, !length_firstn, !length_skipn.
  lia.
Qed.

Lemma on_range_from_0 f n l k d :
  nth k (map f (firstn n l) ++ skipn n l) d =
  if (k <? n)%nat && (k <? List.length l)%nat then f (nth k l d) else nth k l d.
Proof.
  revert n k; induction l as [|a l IH]; intros n k.
  - rewrite firstn_nil, skipn_nil; simpl. rewrite andb_false_r. reflexivity.
  - destruct n as [|n]; [reflexivity|].
    destruct k as [|k]; [reflexivity|].
    simpl firstn; simpl skipn; simpl map; simpl app; simpl nth.
    rewrite IH. reflexivity.
Qed.

Lemma on_range_nth f lo n l k d :
  nth k (on_range f lo n l) d =
  if (lo <=? k)%nat && (k <? lo + n)%nat && (k <? List.length l)%nat
  then f (nth k l d) else nth k l d.
Proof.
  unfold on_range.
  revert lo k; induction l as [|a l IH]; intros lo k.
  - rewrite !skipn_nil, !firstn_nil; simpl. rewrite andb_false_r.
    destruct k; reflexivity.
  - destruct lo as [|lo].
    + simpl firstn at 1; simpl skipn at 1; simpl app at 1.
      rewrite on_range_from_0. reflexivity.
    + destruct k as [|k]; [reflexivity|].
      simpl. apply IH.
Qed.

Lemma firstn_clamped n l :
  firstn (Nat.min n (List.length l)) l = firstn n l.
Proof.
  destruct (Nat.le_ge_cases n (List.length l)) as [H|H].
  - rewrite Nat.min_l by exact H. reflexivity.
  - rewrite Nat.min_r by exact H.
    rewrite firstn_all, firstn_all2 by exact H. reflexivity.
Qed.

(** [l[:z]] for [z >= 0] is the first [z] items. *)
Lemma slice_prefix z l :
  (0 <= z)%Z -> slice None (Some z) l = firstn (Z.to_nat z) l.
Proof.
  intros Hz. unfold slice, slice_bounds, adjust_index.
  destruct (Z.ltb_spec z 0) as [H|_]; [lia|].
  rewrite Z2Nat.inj_min, Nat2Z.id. simpl skipn.
  rewrite Nat.sub_0_r. apply firstn_clamped.
Qed.

(** The bounds of [l[1:stop]] when [stop] denotes the last index:
    the range is [1 .. len-2], empty when [len <= 2]. *)
Lemma slice_bounds_interior stop len :
  stop = (-1)%Z \/ stop = (Z.of_nat len - 1)%Z ->
  let '(lo, hi) := slice_bounds (Some 1%Z) (Some stop) len in
  forall k, (k < len)%nat ->
    (lo <=? k)%nat && (k <? lo + (hi - lo))%nat
    = (1 <=? k)%nat && (k <? len - 1)%nat.
Proof.
  intros Hstop. unfold slice_bounds, adjust_index. intros k Hk.
  apply eq_true_iff_eq.
  rewrite !andb_true_iff, !Nat.leb_le, !Nat.ltb_lt.
  destruct Hstop as [-> | ->].
  - change (1 <? 0)%Z with false; change (-1 <? 0)%Z with true.
    cbv iota. lia.
  - change (1 <? 0)%Z with false; cbv iota.
    destruct (Z.ltb_spec (Z.of_nat len - 1) 0); lia.
Qed.

(** Assigning [map f] of the slice [l[1:stop]] back to it, for such a
    [stop]: [f] reaches the items strictly between the first and the
    last. *)
Lemma set_slice_interior_nth f stop l k d :
  stop = (-1)%Z \/ stop = (Z.of_nat (List.length l) - 1)%Z ->
  (k < List.length l)%nat ->
  nth k (set_slice (Some 1%Z) (Some stop)
           (map f (slice (Some 1%Z) (Some stop) l)) l) d =
  if (1 <=? k)%nat && (k <? List.length l - 1)%nat
  then f (nth k l d) else nth k l d.
Proof.
  intros Hstop Hk.
  pose proof (slice_bounds_interior stop (List.length l) Hstop) as Hb.
  unfold set_slice, slice.
  destruct (slice_bounds (Some 1%Z) (Some stop) (List.length l)) as [lo hi].
  change (nth k (on_range f lo (hi - lo) l) d =
          if (1 <=? k)%nat && (k <? List.length l - 1)%nat
          then f (nth k l d) else nth k l d).
  rewrite on_range_nth, <- (Hb k Hk).
  apply Nat.ltb_lt in Hk. rewrite Hk, andb_true_r. reflexivity.
Qed.

Lemma set_slice_interior_length f start stop l :
  List.length (set_slice start stop (map f (slice start stop l)) l)
  = List.length l.
Proof.
  unfold set_slice, slice.
  destruct (slice_bounds start stop (List.length l)) as [lo hi].
  apply (on_range_length f lo (hi - lo) l).
Qed.

End Slices.

(** ** The numeric libraries *)

Lemma nth_map_in {A B : Type} (f : A -> B) (l : list A) k d d' :
  (k < List.length l)%nat -> nth k (map f l) d' = f (nth k l d).
Proof.
  intros Hk. rewrite (nth_indep _ d' (f d)) by (rewrite length_map; exact Hk).
  apply map_nth.
Qed.

Lemma arange_length N : List.length (arange N) = Z.to_nat N.
Proof. unfold arange. rewrite length_map, length_seq. reflexivity. Qed.

Lemma sample_times_length fs N : List.length (sample_times fs N) = Z.to_nat N.
Proof. unfold sample_times. rewrite length_map. apply arange_length. Qed.

Lemma sample_times_nth fs N k d :
  (k < Z.to_nat N)%nat -> nth k (sample_times fs N) d = (INR k / fs)%R.
Proof.
  intros Hk. unfold sample_times, arange.
  rewrite (nth_map_in _ _ _ 0%R) by (rewrite length_map, length_seq; exact Hk).
  rewrite (nth_map_in _ _ _ 0%nat) by (rewrite length_seq; exact Hk).
  rewrite seq_nth by exact Hk. simpl Nat.add.
  rewrite <- INR_IZR_INZ. reflexivity.
Qed.

Lemma dft_length x : List.length (dft x) = List.length x.
Proof. unfold dft. rewrite length_map, length_seq. reflexivity. Qed.

Lemma dft_nth x k d :
  (k < List.length x)%nat -> nth k (dft x) d = dft_sum (List.length x) k 0 x.
Proof.
  intros Hk. unfold dft.
  rewrite (nth_map_in _ _ _ 0%nat) by (rewrite length_seq; exact Hk).
  rewrite seq_nth by exact Hk. reflexivity.
Qed.

Lemma fft_nonempty x : x <> [] -> fft x = Ok (dft x).
Proof. destruct x; [congruence | reflexivity]. Qed.

Lemma fft_empty : fft [] = Raise ValueError.
Proof. reflexivity. Qed.

Lemma nonempty_of_length {A : Type} (l : list A) :
  (0 < List.length l)%nat -> l <> [].
Proof. destruct l; simpl; [lia | congruence]. Qed.

Lemma IZR_pos_neq n : (1 <= n)%Z -> IZR n <> 0%R.
Proof. intros Hn H. apply eq_IZR_R0 in H. lia. Qed.

Lemma div_nonzero a b : b <> 0%R -> Py.div a b = Ok (a / b)%R.
Proof. intros Hb. unfold Py.div. destruct (Req_dec_T b 0); [contradiction | reflexivity]. Qed.

Lemma div_zero a : Py.div a 0 = Raise ZeroDivisionError.
Proof. unfold Py.div. destruct (Req_dec_T 0 0); [reflexivity | contradiction]. Qed.

Lemma zrange_length a len : List.length (zrange a len) = len.
Proof. unfold zrange. rewrite length_map, length_seq. reflexivity. Qed.

Lemma zrange_nth a len k d :
  (k < len)%nat -> nth k (zrange a len) d = (a + Z.of_nat k)%Z.
Proof.
  intros Hk. unfold zrange.
  rewrite (nth_map_in _ _ _ 0%nat) by (rewrite length_seq; exact Hk).
  rewrite seq_nth by exact Hk. reflexivity.
Qed.

(** The bin numbers [fftfreq] lays out for [n] samples. *)
Lemma fftfreq_returns n d :
  (1 <= n)%Z -> d <> 0%R ->
  exists freqs,
    fftfreq n d = Ok freqs
    /\ List.length freqs = Z.to_nat n
    /\ forall k, (Z.of_nat k <= (n - 1) / 2)%Z ->
         nth k freqs 0%R = (INR k / (IZR n * d))%R.
Proof.
  intros Hn Hd. unfold fftfreq.
  assert (Hnd : (IZR n * d)%R <> 0%R).
  { apply Rmult_integral_contrapositive_currified; [apply IZR_pos_neq; exact Hn | exact Hd]. }
  rewrite (div_nonzero _ _ Hnd). simpl Py.bind.
  destruct (Z.ltb_spec n 0) as [H|_]; [lia|].
  eexists; split; [reflexivity|]. split.
  - rewrite length_map, length_app, !zrange_length.
    assert (H := Z.div_mod n 2 ltac:(lia)).
    assert (H' := Z.mod_pos_bound n 2 ltac:(lia)).
    assert (H1 := Z.div_mod (n - 1) 2 ltac:(lia)).
    assert (H1' := Z.mod_pos_bound (n - 1) 2 ltac:(lia)).
    lia.
  - intros k Hk.
    assert (H1 := Z.div_mod (n - 1) 2 ltac:(lia)).
    assert (H1' := Z.mod_pos_bound (n - 1) 2 ltac:(lia)).
    assert (Hk' : (k < Z.to_nat ((n - 1) / 2 + 1))%nat) by lia.
    rewrite (nth_map_in _ _ _ 0%Z)
      by (rewrite length_app, zrange_length; lia).
    rewrite app_nth1 by (rewrite zrange_length; exact Hk').
    rewrite zrange_nth by exact Hk'.
    rewrite Z.add_0_l, <- INR_IZR_INZ. field.
    split; [exact Hd | apply IZR_pos_neq; exact Hn].
Qed.

Lemma generate_signal_length t :
  List.length (generate_signal t) = List.length t.
Proof. unfold generate_signal. apply length_map. Qed.

Lemma impulse_length t : List.length (impulse t) = List.length t.
Proof. unfold impulse. apply length_map. Qed.

Lemma last_item_nonempty {A : Type} (l : list A) :
  l <> [] -> exists x, last_item l = Ok x.
Proof.
  intros Hl. unfold last_item.
  destruct (rev l) as [|x r] eqn:E.
  - apply (f_equal (@rev A)) in E. rewrite rev_involutive in E. contradiction.
  - exists x. reflexivity.
Qed.

Lemma half_bounds N :
  (1 <= N)%Z -> (0 <= N / 2 <= N)%Z /\ (N / 2 - 1 <= (N - 1) / 2)%Z.
Proof.
  intros HN.
  assert (H := Z.div_mod N 2 ltac:(lia)).
  assert (H' := Z.mod_pos_bound N 2 ltac:(lia)).
  assert (H1 := Z.div_mod (N - 1) 2 ltac:(lia)).
  assert (H1' := Z.mod_pos_bound (N - 1) 2 ltac:(lia)).
  lia.
Qed.

Lemma inv_fs_nonzero fs : fs <> 0%R -> (1 / fs)%R <> 0%R.
Proof.
  intros H. unfold Rdiv. rewrite Rmult_1_l. apply Rinv_neq_0_compat. exact H.
Qed.

(** The frequency axis both callers cut out of [fftfreq]'s result. *)
Lemma frequency_axis fs N freqs :
  (1 <= N)%Z -> fs <> 0%R ->
  List.length freqs = Z.to_nat N ->
  (forall k, (Z.of_nat k <= (N - 1) / 2)%Z ->
             nth k freqs 0%R = (INR k / (IZR N * (1 / fs)))%R) ->
  List.length (slice None (Some (N / 2)%Z) freqs) = Z.to_nat (N / 2)
  /\ forall k, (k < Z.to_nat (N / 2))%nat ->
       nth k (slice None (Some (N / 2)%Z) freqs) 0%R = (INR k * fs / IZR N)%R.
Proof.
  intros HN Hfs Hlen Hnth.
  destruct (half_bounds N HN) as [Hh Hh'].
  rewrite slice_prefix by lia. split.
  - rewrite length_firstn, Hlen. lia.
  - intros k Hk. rewrite nth_firstn.
    apply Nat.ltb_lt in Hk as Hk'. rewrite Hk'.
    rewrite Hnth by lia. field.
    split; [apply IZR_pos_neq; exact HN | exact Hfs].
Qed.

(** ** The drawing calls *)

Lemma plot_same_length x y :
  List.length x = List.length y -> plot x y = Ok tt.
Proof. intros H. unfold plot. rewrite H, Nat.eqb_refl. reflexivity. Qed.

Lemma stem_nonempty x y :
  List.length x = List.length y -> (0 < List.length x)%nat -> stem x y = Ok tt.
Proof.
  intros H Hx. unfold stem. rewrite H, Nat.eqb_refl. simpl negb.
  destruct x; [simpl in Hx; lia | reflexivity].
Qed.

Lemma stem_empty y : stem [] y = Raise ValueError.
Proof. destruct y; reflexivity. Qed.

Lemma nondecreasing_of_nth (l : list R) :
  (forall j, (S j < List.length l)%nat -> (nth j l 0 <= nth (S j) l 0)%R) ->
  nondecreasing l = true.
Proof.
  induction l as [|a rest IH]; intros H; [reflexivity|].
  destruct rest as [|b rest']; [reflexivity|].
  change (nondecreasing (a :: b :: rest'))
    with ((if Rle_dec a b then true else false) && nondecreasing (b :: rest')).
  destruct (Rle_dec a b) as [_|Hab].
  - simpl andb. apply IH. intros j Hj. apply (H (S j)). simpl in *. lia.
  - exfalso. apply Hab. apply (H 0%nat). simpl. lia.
Qed.

Lemma nondecreasing_head (a b : R) (rest : list R) :
  (b < a)%R -> nondecreasing (a :: b :: rest) = false.
Proof.
  intros H.
  change (nondecreasing (a :: b :: rest))
    with ((if Rle_dec a b then true else false) && nondecreasing (b :: rest)).
  destruct (Rle_dec a b); [lra | reflexivity].
Qed.

Lemma fit_curve_nondecreasing freqs magnitude :
  nondecreasing freqs = true -> fit_curve freqs magnitude = Ok (fit_method freqs).
Proof.
  intros H. unfold fit_curve. rewrite H. destruct (fit_method freqs); reflexivity.
Qed.

(** An axis [k fs / N] with [fs > 0] is in increasing order. *)
Lemma axis_nondecreasing (freqs : list R) (fs : R) (N : Z) :
  (1 <= N)%Z -> (0 < fs)%R ->
  (forall k, (k < List.length freqs)%nat ->
             nth k freqs 0%R = (INR k * fs / IZR N)%R) ->
  nondecreasing freqs = true.
Proof.
  intros HN Hfs Hf. apply nondecreasing_of_nth. intros j Hj.
  rewrite !Hf by lia.
  assert (HNpos : (0 < IZR N)%R) by (apply IZR_lt; lia).
  unfold Rdiv. apply Rmult_le_compat_r.
  - left. apply Rinv_0_lt_compat. exact HNpos.
  - apply Rmult_le_compat_r; [lra|]. apply le_INR. lia.
Qed.

(** An axis [k fs / N] with [fs < 0] and two bins or more is not. *)
Lemma axis_decreasing (freqs : list R) (fs : R) (N : Z) :
  (1 <= N)%Z -> (fs < 0)%R -> (2 <= List.length freqs)%nat ->
  (forall k, (k < List.length freqs)%nat ->
             nth k freqs 0%R = (INR k * fs / IZR N)%R) ->
  nondecreasing freqs = false.
Proof.
  intros HN Hfs Hlen Hf.
  destruct freqs as [|a [|b rest]]; simpl in Hlen; try lia.
  apply nondecreasing_head.
  pose proof (Hf 0%nat ltac:(simpl; lia)) as H0.
  pose proof (Hf 1%nat ltac:(simpl; lia)) as H1.
  simpl in H0, H1. rewrite H0, H1.
  assert (HNpos : (0 < IZR N)%R) by (apply IZR_lt; lia).
  assert (Hinv : (0 < / IZR N)%R) by (apply Rinv_0_lt_compat; exact HNpos).
  unfold Rdiv. set (q := (/ IZR N)%R) in *. nra.
Qed.

(** ** The spectrum analyzer *)

Section Analyzer.

Variable signal : list R -> list R.
Hypothesis signal_length : forall t, List.length (signal t) = List.length t.

(** On at least one sample and a non-zero sampling frequency the arrays
    are computed, and these are the arrays. *)
Lemma analyze_spectrum_arrays_returns fs N :
  (1 <= N)%Z -> fs <> 0%R ->
  exists a,
    analyze_spectrum_arrays signal fs N = Ok a
    /\ arr_t a = sample_times fs N
    /\ arr_sampled_signal a = signal (sample_times fs N)
    /\ List.length (arr_freqs a) = Z.to_nat (N / 2)
    /\ List.length (arr_magnitude a) = Z.to_nat (N / 2)
    /\ (forall k, (k < Z.to_nat (N / 2))%nat ->
          nth k (arr_freqs a) 0%R = (INR k * fs / IZR N)%R)
    /\ (forall k, (k < Z.to_nat (N / 2))%nat ->
          nth k (arr_magnitude a) 0%R =
          if (1 <=? k)%nat && (k <? Z.to_nat (N / 2) - 1)%nat
          then (2 * normalized_magnitude (signal (sample_times fs N)) N k)%R
          else normalized_magnitude (signal (sample_times fs N)) N k).
Proof.
  intros HN Hfs. unfold analyze_spectrum_arrays. fold (sample_times fs N).
  set (x := signal (sample_times fs N)).
  assert (Hx : List.length x = Z.to_nat N)
    by (unfold x; rewrite signal_length; apply sample_times_length).
  destruct (half_bounds N HN) as [Hh _].
  rewrite fft_nonempty by (apply nonempty_of_length; lia).
  simpl Py.bind. rewrite (div_nonzero _ _ Hfs). simpl Py.bind.
  destruct (fftfreq_returns N (1 / fs) HN (inv_fs_nonzero fs Hfs))
    as (freqs & -> & Hlen & Hnth).
  simpl Py.bind.
  destruct (frequency_axis fs N freqs HN Hfs Hlen Hnth) as [Hfl Hfn].
  set (m0 := slice None (Some (N / 2)%Z)
               (map (fun z => (Cabs z / IZR N)%R) (dft x))).
  assert (Hm0 : List.length m0 = Z.to_nat (N / 2)).
  { unfold m0. rewrite slice_prefix by lia.
    rewrite length_firstn, length_map, dft_length. lia. }
  eexists. split; [reflexivity|].
  cbn [arr_t arr_sampled_signal arr_freqs arr_magnitude].
  repeat split; try assumption.
  - rewrite set_slice_interior_length. exact Hm0.
  - intros k Hk.
    rewrite set_slice_interior_nth by (first [left; reflexivity | lia]).
    rewrite Hm0.
    assert (Hk0 : nth k m0 0%R = normalized_magnitude x N k).
    { unfold m0. rewrite slice_prefix by lia. rewrite nth_firstn.
      apply Nat.ltb_lt in Hk as Hk'. rewrite Hk'.
      rewrite (nth_map_in _ _ _ (0%R, 0%R)) by (rewrite dft_length; lia).
      rewrite dft_nth by lia. reflexivity. }
    rewrite Hk0. reflexivity.
Qed.

(** On two samples or more and a positive sampling frequency the analyzer
    returns a figure, and the figure shows the arrays. *)
Lemma analyze_spectrum_shows_arrays fs N title :
  (2 <= N)%Z -> (0 < fs)%R ->
  exists a fig,
    analyze_spectrum_arrays signal fs N = Ok a
    /\ analyze_spectrum signal fs N title = Ok fig
    /\ fig_sampled_signal fig = arr_sampled_signal a
    /\ fig_freqs fig = arr_freqs a
    /\ fig_magnitude fig = arr_magnitude a.
Proof.
  intros HN Hfs.
  destruct (analyze_spectrum_arrays_returns fs N ltac:(lia) ltac:(lra))
    as (a & Ea & Ht & Hs & Hfl & Hml & Hf & _).
  assert (1 <= N / 2)%Z by (apply Z.div_le_lower_bound; lia).
  exists a. unfold analyze_spectrum. rewrite Ea. simpl Py.bind.
  rewrite plot_same_length by (rewrite Ht, Hs, signal_length; reflexivity).
  simpl Py.bind.
  rewrite stem_nonempty by (rewrite ?Hfl, ?Hml; lia).
  simpl Py.bind.
  rewrite fit_curve_nondecreasing
    by (apply (axis_nondecreasing _ fs N); [lia | exact Hfs |];
        intros k Hk; apply Hf; lia).
  simpl Py.bind. eexists. repeat split; reflexivity.
Qed.

(** On two samples or more and a positive sampling frequency the analyzer
    returns, and this is what it returns. *)
Lemma analyze_spectrum_returns fs N title :
  (2 <= N)%Z -> (0 < fs)%R ->
  exists fig,
    analyze_spectrum signal fs N title = Ok fig
    /\ fig_sampled_signal fig = signal (sample_times fs N)
    /\ List.length (fig_freqs fig) = Z.to_nat (N / 2)
    /\ List.length (fig_magnitude fig) = Z.to_nat (N / 2)
    /\ (forall k, (k < Z.to_nat (N / 2))%nat ->
          nth k (fig_freqs fig) 0%R = (INR k * fs / IZR N)%R)
    /\ (forall k, (k < Z.to_nat (N / 2))%nat ->
          nth k (fig_magnitude fig) 0%R =
          if (1 <=? k)%nat && (k <? Z.to_nat (N / 2) - 1)%nat
          then (2 * normalized_magnitude (signal (sample_times fs N)) N k)%R
          else normalized_magnitude (signal (sample_times fs N)) N k).
Proof.
  intros HN Hfs.
  destruct (analyze_spectrum_shows_arrays fs N title HN Hfs)
    as (a & fig & Ea & E & Hs' & Hf' & Hm').
  destruct (analyze_spectrum_arrays_returns fs N ltac:(lia) ltac:(lra))
    as (a' & Ea' & _ & Hs & Hfl & Hml & Hf & Hm).
  rewrite Ea in Ea'. injection Ea' as <-.
  exists fig. rewrite Hs', Hf', Hm'. auto 10.
Qed.

(** With no sample at all the transform refuses its input. *)
Lemma analyze_spectrum_no_sample fs N title :
  (N <= 0)%Z -> analyze_spectrum signal fs N title = Raise ValueError.
Proof.
  intros HN. unfold analyze_spectrum, analyze_spectrum_arrays.
  assert (E : signal (map (fun x => (x / fs)%R) (arange N)) = []).
  { apply length_zero_iff_nil.
    rewrite signal_length, length_map, arange_length. lia. }
  rewrite E. reflexivity.
Qed.

(** With a single sample no bin is retained, and the stems cannot be
    drawn. *)
Lemma analyze_spectrum_single_sample fs title :
  fs <> 0%R -> analyze_spectrum signal fs 1 title = Raise ValueError.
Proof.
  intros Hfs.
  destruct (analyze_spectrum_arrays_returns fs 1 ltac:(lia) Hfs)
    as (a & Ea & Ht & Hs & Hfl & _).
  change (Z.to_nat (1 / 2)) with 0%nat in Hfl.
  apply length_zero_iff_nil in Hfl.
  unfold analyze_spectrum. rewrite Ea. simpl Py.bind.
  rewrite plot_same_length by (rewrite Ht, Hs, signal_length; reflexivity).
  simpl Py.bind. rewrite Hfl, stem_empty. reflexivity.
Qed.

(** With a negative sampling frequency the axis decreases, and the
    spline, fitted from 11 bins on, refuses it. *)
Lemma analyze_spectrum_decreasing_axis fs N title :
  (22 <= N)%Z -> (fs < 0)%R ->
  analyze_spectrum signal fs N title = Raise ValueError.
Proof.
  intros HN Hfs.
  destruct (analyze_spectrum_arrays_returns fs N ltac:(lia) ltac:(lra))
    as (a & Ea & Ht & Hs & Hfl & Hml & Hf & _).
  assert (11 <= N / 2)%Z by (apply Z.div_le_lower_bound; lia).
  unfold analyze_spectrum. rewrite Ea. simpl Py.bind.
  rewrite plot_same_length by (rewrite Ht, Hs, signal_length; reflexivity).
  simpl Py.bind.
  rewrite stem_nonempty by (rewrite ?Hfl, ?Hml; lia).
  simpl Py.bind. unfold fit_curve, fit_method. rewrite Hfl.
  destruct (Nat.ltb_spec 3 (Z.to_nat (N / 2))); [|lia].
  destruct (Nat.ltb_spec 10 (Z.to_nat (N / 2))); [|lia].
  rewrite (axis_decreasing _ fs N); try lia; try exact Hfs.
  - reflexivity.
  - intros k Hk. apply Hf. lia.
Qed.

End Analyzer.

(** ** The recomputation of the interactive session *)

Lemma title_status_cases fs :
  ((fs < 2 * f2)%Z /\ title_status fs = "Undersampling"%string)
  \/ ((2 * f2 <= fs)%Z /\ title_status fs = "Proper Sampling"%string).
Proof.
  unfold title_status. destruct (Z.ltb_spec fs (2 * f2)); [left | right]; auto.
Qed.

(** With at least one sample and a non-zero sampling frequency the arrays
    of [update_plot] are computed, and these are the arrays. *)
Lemma update_plot_arrays_returns s :
  (1 <= N_current s)%Z -> fs_current s <> 0%Z ->
  let fs := fs_current s in
  let N := N_current s in
  let x := generate_signal (sample_times (IZR fs) N) in
  exists a,
    update_plot_arrays s = Ok a
    /\ arr_t a = sample_times (IZR fs) N
    /\ arr_sampled_signal a = x
    /\ List.length (arr_freqs a) = Z.to_nat (N / 2)
    /\ List.length (arr_magnitude a) = Z.to_nat (N / 2)
    /\ (forall k, (k < Z.to_nat (N / 2))%nat ->
          nth k (arr_freqs a) 0%R = (INR k * IZR fs / IZR N)%R)
    /\ (forall k, (k < Z.to_nat (N / 2))%nat ->
          nth k (arr_magnitude a) 0%R =
          if (1 <=? k)%nat && (k <? Z.to_nat (N / 2) - 1)%nat
          then (2 * normalized_magnitude x N k)%R
          else normalized_magnitude x N k).
Proof.
  intros HN Hfz fs N x.
  assert (Hfs : IZR fs <> 0%R) by (intros H; apply eq_IZR_R0 in H; contradiction).
  unfold update_plot_arrays. fold fs N. fold (sample_times (IZR fs) N). fold x.
  assert (Hx : List.length x = Z.to_nat N)
    by (unfold x; rewrite generate_signal_length; apply sample_times_length).
  destruct (half_bounds N HN) as [Hh _].
  rewrite fft_nonempty by (apply nonempty_of_length; lia).
  simpl Py.bind. rewrite (div_nonzero _ _ Hfs). simpl Py.bind.
  destruct (fftfreq_returns N (1 / IZR fs) HN (inv_fs_nonzero _ Hfs))
    as (freqs & -> & Hlen & Hnth).
  simpl Py.bind.
  destruct (frequency_axis (IZR fs) N freqs HN Hfs Hlen Hnth) as [Hfl Hfn].
  set (m0 := map (fun z => (Cabs z / IZR N)%R)
               (slice None (Some (N / 2)%Z) (dft x))).
  assert (Hm0 : List.length m0 = Z.to_nat (N / 2)).
  { unfold m0. rewrite length_map, slice_prefix by lia.
    rewrite length_firstn, dft_length. lia. }
  eexists. split; [reflexivity|].
  cbn [arr_t arr_sampled_signal arr_freqs arr_magnitude].
  repeat split; try assumption.
  - rewrite set_slice_interior_length. exact Hm0.
  - intros k Hk.
    rewrite set_slice_interior_nth by (first [right; lia | lia]).
    rewrite Hm0.
    assert (Hk0 : nth k m0 0%R = normalized_magnitude x N k).
    { unfold m0.
      rewrite (nth_map_in _ _ _ (0%R, 0%R))
        by (rewrite slice_prefix by lia; rewrite length_firstn, dft_length; lia).
      rewrite slice_prefix by lia. rewrite nth_firstn.
      apply Nat.ltb_lt in Hk as Hk'. rewrite Hk'.
      rewrite dft_nth by lia. reflexivity. }
    rewrite Hk0. destruct (_ && _); [apply Rmult_comm | reflexivity].
Qed.

(** With two samples or more and a positive sampling frequency
    [update_plot] returns a view, and the view shows the arrays. *)
Lemma update_plot_shows_arrays s :
  (2 <= N_current s)%Z -> (0 < fs_current s)%Z ->
  exists a v,
    update_plot_arrays s = Ok a
    /\ update_plot s = Ok v
    /\ view_sampled_signal v = arr_sampled_signal a
    /\ view_freqs v = arr_freqs a
    /\ view_magnitude v = arr_magnitude a
    /\ view_title_status v = title_status (fs_current s)
    /\ view_title_time v =
         ("Time Domain - " ++ title_status (fs_current s) ++ ": Fs="
            ++ str_int (fs_current s) ++ "Hz, N="
            ++ str_int (N_current s))%string
    /\ view_title_freq v =
         ("Frequency Domain - " ++ title_status (fs_current s) ++ ": Fs="
            ++ str_int (fs_current s) ++ "Hz, N="
            ++ str_int (N_current s))%string.
Proof.
  intros HN Hfs.
  destruct (update_plot_arrays_returns s ltac:(lia) ltac:(lia))
    as (a & Ea & Ht & Hs & Hfl & Hml & Hf & _).
  assert (1 <= N_current s / 2)%Z by (apply Z.div_le_lower_bound; lia).
  exists a. unfold update_plot. rewrite Ea. simpl Py.bind.
  destruct (last_item_nonempty (arr_t a)) as [t_last ->].
  { apply nonempty_of_length. rewrite Ht, sample_times_length. lia. }
  simpl Py.bind.
  rewrite stem_nonempty by (rewrite ?Hfl, ?Hml; lia).
  simpl Py.bind.
  rewrite fit_curve_nondecreasing
    by (apply (axis_nondecreasing _ (IZR (fs_current s)) (N_current s));
        [lia | apply IZR_lt; exact Hfs |]; intros k Hk; apply Hf; lia).
  simpl Py.bind. eexists. repeat split; reflexivity.
Qed.

(** With two samples or more and a positive sampling frequency
    [update_plot] returns, and this is what it draws. *)
Lemma update_plot_returns s :
  (2 <= N_current s)%Z -> (0 < fs_current s)%Z ->
  let fs := fs_current s in
  let N := N_current s in
  let x := generate_signal (sample_times (IZR fs) N) in
  exists v,
    update_plot s = Ok v
    /\ view_sampled_signal v = x
    /\ List.length (view_freqs v) = Z.to_nat (N / 2)
    /\ List.length (view_magnitude v) = Z.to_nat (N / 2)
    /\ (forall k, (k < Z.to_nat (N / 2))%nat ->
          nth k (view_freqs v) 0%R = (INR k * IZR fs / IZR N)%R)
    /\ (forall k, (k < Z.to_nat (N / 2))%nat ->
          nth k (view_magnitude v) 0%R =
          if (1 <=? k)%nat && (k <? Z.to_nat (N / 2) - 1)%nat
          then (2 * normalized_magnitude x N k)%R
          else normalized_magnitude x N k)
    /\ view_title_status v = title_status fs
    /\ view_title_time v =
         ("Time Domain - " ++ title_status fs ++ ": Fs=" ++ str_int fs
            ++ "Hz, N=" ++ str_int N)%string
    /\ view_title_freq v =
         ("Frequency Domain - " ++ title_status fs ++ ": Fs=" ++ str_int fs
            ++ "Hz, N=" ++ str_int N)%string.
Proof.
  intros HN Hfs fs N x.
  destruct (update_plot_shows_arrays s HN Hfs)
    as (a & v & Ea & E & Hs' & Hf' & Hm' & Hst & Ht1 & Ht2).
  destruct (update_plot_arrays_returns s ltac:(lia) ltac:(lia))
    as (a' & Ea' & _ & Hs & Hfl & Hml & Hf & Hm).
  rewrite Ea in Ea'. injection Ea' as <-.
  exists v. rewrite Hs', Hf', Hm'. auto 12.
Qed.

(** With a single sample no bin is retained, and the stems cannot be
    drawn. *)
Lemma update_plot_single_sample s :
  N_current s = 1%Z -> fs_current s <> 0%Z ->
  update_plot s = Raise ValueError.
Proof.
  intros HN Hfs.
  destruct (update_plot_arrays_returns s ltac:(lia) Hfs)
    as (a & Ea & Ht & _ & Hfl & _).
  rewrite HN in Hfl. change (Z.to_nat (1 / 2)) with 0%nat in Hfl.
  apply length_zero_iff_nil in Hfl.
  unfold update_plot. rewrite Ea. simpl Py.bind.
  destruct (last_item_nonempty (arr_t a)) as [t_last ->].
  { apply nonempty_of_length. rewrite Ht, sample_times_length. lia. }
  simpl Py.bind. rewrite Hfl, stem_empty. reflexivity.
Qed.

(** ** The doubling of the one-sided spectrum *)

(** For an even sample count the slice implements the contract's rule. *)
Lemma doubled_by_slice_even N k :
  Z.even N = true -> (Z.of_nat k < N / 2)%Z ->
  doubled_by_slice N k = doubled_by_contract N k.
Proof.
  intros Hev Hk. unfold doubled_by_slice, doubled_by_contract. rewrite Hev.
  apply eq_true_iff_eq.
  rewrite !andb_true_iff, !negb_true_iff, andb_true_l, Nat.leb_le, Nat.ltb_lt,
    Nat.eqb_neq, Z.eqb_neq.
  lia.
Qed.

(** For an odd sample count the two rules differ exactly on the last
    retained bin, when it is not bin 0. *)
Lemma doubled_by_slice_odd N k :
  Z.even N = false -> (Z.of_nat k < N / 2)%Z ->
  doubled_by_slice N k =
  doubled_by_contract N k && negb (Z.of_nat k =? N / 2 - 1)%Z.
Proof.
  intros Hev Hk. unfold doubled_by_slice, doubled_by_contract. rewrite Hev.
  apply eq_true_iff_eq.
  rewrite !andb_true_iff, !negb_true_iff, andb_false_l, Nat.leb_le, Nat.ltb_lt,
    Nat.eqb_neq, Z.eqb_neq.
  simpl. intuition lia.
Qed.

Lemma impulse_samples :
  impulse (sample_times 4000 5) = [1; 0; 0; 0; 0]%R.
Proof.
  unfold impulse, sample_times, arange.
  change (Z.to_nat 5) with 5%nat.
  cbn [seq map Z.of_nat Pos.of_succ_nat Pos.succ].
  repeat match goal with
         | |- context [Req_dec_T ?a ?b] => destruct (Req_dec_T a b); try lra
         end.
  reflexivity.
Qed.

(** Every bin of a unit impulse has magnitude 1; here bin 1 of 5. *)
Lemma impulse_bin_1 :
  normalized_magnitude [1; 0; 0; 0; 0]%R 5 1 = (1 / 5)%R.
Proof.
  unfold normalized_magnitude, Cabs.
  cbn [List.length dft_sum dft_term Cplus fst snd].
  assert (E : (2 * PI * INR 1 * INR 0 / INR 5)%R = 0%R)
    by (unfold Rdiv; rewrite Rmult_0_r, Rmult_0_l; reflexivity).
  rewrite E, cos_0, sin_0.
  match goal with
  | |- (sqrt ?a / _)%R = _ => replace a with 1%R by ring
  end.
  rewrite sqrt_1. reflexivity.
Qed.

(** C1 (the code departs from it).  The claim: for a sampled signal of
    length N >= 2 every retained bin is doubled except index 0 and, when N is
    even, the last retained bin; so for odd N every retained bin except
    index 0 is doubled.  The analyzer at a unit impulse sampled 5 times at
    4000 Hz: two bins are retained, the contract's rule doubles bin 1, and
    the analyzer returns bin 1 as it was before the doubling step, 1/5. *)
Theorem C1_last_bin_of_odd_count_not_doubled :
  exists fig,
    analyze_spectrum impulse 4000 5 "" = Ok fig
    /\ fig_sampled_signal fig = [1; 0; 0; 0; 0]%R
    /\ List.length (fig_magnitude fig) = 2%nat
    /\ doubled_by_contract 5 1 = true
    /\ normalized_magnitude (fig_sampled_signal fig) 5 1 = (1 / 5)%R
    /\ nth 1 (fig_magnitude fig) 0%R = (1 / 5)%R
    /\ nth 1 (fig_magnitude fig) 0%R
       <> (2 * normalized_magnitude (fig_sampled_signal fig) 5 1)%R.
Proof.
  destruct (analyze_spectrum_returns impulse impulse_length 4000 5 ""
              ltac:(lia) ltac:(lra))
    as (fig & E & Hs & _ & Hml & _ & Hm).
  change (Z.to_nat (5 / 2)) with 2%nat in Hml, Hm.
  specialize (Hm 1%nat ltac:(lia)). cbn [Nat.leb Nat.ltb Nat.sub andb] in Hm.
  rewrite impulse_samples in Hs, Hm. rewrite impulse_bin_1 in Hm.
  exists fig. rewrite Hs, Hm, impulse_bin_1.
  repeat split; try assumption; try reflexivity. lra.
Qed.

(** ** The signal generator *)

(** C2.  For every sequence of time values, the empty one included, the
    generator returns, item by item, cos(2 pi 1000 t + pi/4) + cos(2 pi 1100 t);
    it is a total function of its argument alone. *)
Theorem C2_generate_signal_elementwise (t : list R) :
  Forall2
    (fun ti y =>
       y = (cos (2 * PI * 1000 * ti + PI / 4) + cos (2 * PI * 1100 * ti))%R)
    t (generate_signal t)
  /\ List.length (generate_signal t) = List.length t
  /\ generate_signal [] = [].
Proof.
  split; [| split; [apply generate_signal_length | reflexivity]].
  induction t as [|ti t IH]; simpl; constructor; [reflexivity | exact IH].
Qed.

(** ** Length and frequency axis of the spectrum *)

(** C3.  For every sample count N >= 1 and sampling frequency fs > 0 the
    computed spectrum has exactly floor(N/2) frequencies and exactly
    floor(N/2) magnitudes, one pair per bin, and the frequency of bin k is
    k fs / N for every k < floor(N/2): in [analyze_spectrum] for any signal
    that returns one value per time, and in [update_plot].  From two samples
    on the function returns, and the figure or view shows these arrays. *)
Theorem C3_spectrum_length_and_frequencies
    (signal : list R -> list R) (fs : R) (N : Z) (title : string)
    (s : session) :
  (forall t, List.length (signal t) = List.length t) ->
  (1 <= N)%Z -> (0 < fs)%R ->
  (1 <= N_current s)%Z -> (0 < fs_current s)%Z ->
  (exists a,
      analyze_spectrum_arrays signal fs N = Ok a
      /\ Z.of_nat (List.length (arr_freqs a)) = (N / 2)%Z
      /\ Z.of_nat (List.length (arr_magnitude a)) = (N / 2)%Z
      /\ (forall k : nat, (Z.of_nat k < N / 2)%Z ->
            nth k (arr_freqs a) 0%R = (INR k * fs / IZR N)%R)
      /\ ((2 <= N)%Z ->
          exists fig,
            analyze_spectrum signal fs N title = Ok fig
            /\ fig_freqs fig = arr_freqs a
            /\ fig_magnitude fig = arr_magnitude a))
  /\ (exists a,
        update_plot_arrays s = Ok a
        /\ Z.of_nat (List.length (arr_freqs a)) = (N_current s / 2)%Z
        /\ Z.of_nat (List.length (arr_magnitude a)) = (N_current s / 2)%Z
        /\ (forall k : nat, (Z.of_nat k < N_current s / 2)%Z ->
              nth k (arr_freqs a) 0%R
              = (INR k * IZR (fs_current s) / IZR (N_current s))%R)
        /\ ((2 <= N_current s)%Z ->
            exists v,
              update_plot s = Ok v
              /\ view_freqs v = arr_freqs a
              /\ view_magnitude v = arr_magnitude a)).
Proof.
  intros Hsig HN Hfs HNs Hfss. split.
  - destruct (analyze_spectrum_arrays_returns signal Hsig fs N HN ltac:(lra))
      as (a & Ea & _ & _ & Hfl & Hml & Hf & _).
    destruct (half_bounds N HN) as [Hh _].
    exists a. split; [exact Ea|]. split; [lia|]. split; [lia|]. split.
    + intros k Hk. apply Hf. lia.
    + intros H2.
      destruct (analyze_spectrum_shows_arrays signal Hsig fs N title H2 Hfs)
        as (a' & fig & Ea' & E & _ & Hf' & Hm').
      rewrite Ea in Ea'. injection Ea' as <-.
      exists fig. auto.
  - destruct (update_plot_arrays_returns s HNs ltac:(lia))
      as (a & Ea & _ & _ & Hfl & Hml & Hf & _).
    destruct (half_bounds _ HNs) as [Hh _].
    exists a. split; [exact Ea|]. split; [lia|]. split; [lia|]. split.
    + intros k Hk. apply Hf. lia.
    + intros H2.
      destruct (update_plot_shows_arrays s H2 Hfss)
        as (a' & v & Ea' & E & _ & Hf' & Hm' & _).
      rewrite Ea in Ea'. injection Ea' as <-.
      exists v. auto.
Qed.

Lemma C3_spectrum_length_and_frequencies_witness :
  (exists a,
      analyze_spectrum_arrays generate_signal 4000 1000 = Ok a
      /\ Z.of_nat (List.length (arr_freqs a)) = (1000 / 2)%Z
      /\ Z.of_nat (List.length (arr_magnitude a)) = (1000 / 2)%Z
      /\ (forall k : nat, (Z.of_nat k < 1000 / 2)%Z ->
            nth k (arr_freqs a) 0%R = (INR k * 4000 / 1000)%R)
      /\ ((2 <= 1000)%Z ->
          exists fig,
            analyze_spectrum generate_signal 4000 1000 "" = Ok fig
            /\ fig_freqs fig = arr_freqs a
            /\ fig_magnitude fig = arr_magnitude a))
  /\ (exists a,
        update_plot_arrays session_init = Ok a
        /\ Z.of_nat (List.length (arr_freqs a))
           = (N_current session_init / 2)%Z
        /\ Z.of_nat (List.length (arr_magnitude a))
           = (N_current session_init / 2)%Z
        /\ (forall k : nat, (Z.of_nat k < N_current session_init / 2)%Z ->
              nth k (arr_freqs a) 0%R
              = (INR k * IZR (fs_current session_init)
                 / IZR (N_current session_init))%R)
        /\ ((2 <= N_current session_init)%Z ->
            exists v,
              update_plot session_init = Ok v
              /\ view_freqs v = arr_freqs a
              /\ view_magnitude v = arr_magnitude a)).
Proof.
  apply (C3_spectrum_length_and_frequencies
           generate_signal 4000 1000 "" session_init generate_signal_length).
  - lia.
  - lra.
  - cbv [N_current session_init N_init]. lia.
  - cbv [fs_current session_init fs_init]. lia.
Defined.

(** ** Degenerate sample counts *)

(** C9, as stated, fails with no sample: the transform rejects the empty
    array. *)
Lemma C9_no_sample_raises :
  analyze_spectrum generate_signal 4000 0 "" = Raise ValueError.
Proof.
  apply (analyze_spectrum_no_sample generate_signal generate_signal_length).
  lia.
Qed.

(** C9 (amended).  For every sample count N < 2, with fs > 0, the
    analyzer fails with ValueError.  With no sample the transform rejects
    the empty array.  With one sample the arrays are computed: the one-sided
    slice is empty, of length floor(1/2) = 0, and the doubling step leaves
    the empty slice as it is; it is the drawing of the stems of the empty
    spectrum that raises. *)
Theorem C9_degenerate_sample_counts
    (signal : list R -> list R) (fs : R) (N : Z) (title : string) :
  (forall t, List.length (signal t) = List.length t) ->
  (0 < fs)%R -> (N < 2)%Z ->
  analyze_spectrum signal fs N title = Raise ValueError
  /\ (exists a,
        analyze_spectrum_arrays signal fs 1 = Ok a
        /\ arr_freqs a = [] /\ arr_magnitude a = []
        /\ Z.of_nat (List.length (arr_magnitude a)) = (1 / 2)%Z
        /\ stem (arr_freqs a) (arr_magnitude a) = Raise ValueError)
  /\ set_slice (Some 1%Z) (Some (-1)%Z)
       (map (fun m => (2 * m)%R) (slice (Some 1%Z) (Some (-1)%Z) []))
       ([] : list R) = [].
Proof.
  intros Hsig Hfs HN. split; [| split].
  - destruct (Z.le_gt_cases N 0) as [H0|H0].
    + apply (analyze_spectrum_no_sample signal Hsig). exact H0.
    + replace N with 1%Z by lia.
      apply (analyze_spectrum_single_sample signal Hsig). lra.
  - destruct (analyze_spectrum_arrays_returns signal Hsig fs 1 ltac:(lia) ltac:(lra))
      as (a & Ea & _ & _ & Hfl & Hml & _).
    change (Z.to_nat (1 / 2)) with 0%nat in Hfl, Hml.
    apply length_zero_iff_nil in Hfl, Hml.
    exists a. rewrite Hfl, Hml. repeat split; try reflexivity. exact Ea.
  - reflexivity.
Qed.

Lemma C9_degenerate_sample_counts_witness :
  analyze_spectrum generate_signal 4000 1 "" = Raise ValueError
  /\ (exists a,
        analyze_spectrum_arrays generate_signal 4000 1 = Ok a
        /\ arr_freqs a = [] /\ arr_magnitude a = []
        /\ Z.of_nat (List.length (arr_magnitude a)) = (1 / 2)%Z
        /\ stem (arr_freqs a) (arr_magnitude a) = Raise ValueError)
  /\ set_slice (Some 1%Z) (Some (-1)%Z)
       (map (fun m => (2 * m)%R) (slice (Some 1%Z) (Some (-1)%Z) []))
       ([] : list R) = [].
Proof.
  apply (C9_degenerate_sample_counts generate_signal 4000 1 ""
           generate_signal_length).
  - lra.
  - lia.
Defined.

(** ** Key events *)

Lemma key_is_true k name : key_is k name = true <-> k = Some name.
Proof.
  destruct k as [k|]; simpl.
  - rewrite String.eqb_eq. split; congruence.
  - split; discriminate.
Qed.

Lemma key_is_false k name : key_is k name = false <-> k <> Some name.
Proof.
  rewrite <- key_is_true. destruct (key_is k name); split; congruence.
Qed.

(** The branches of [on_key], one per disjunct and in its order. *)
Lemma on_key_cases k s :
  (k = Some "up"%string
   /\ exists line,
        on_key k s =
        ({| fs_current := fs_current s + fs_step; N_current := N_current s |},
         [Printed line;
          UpdatePlot (update_plot {| fs_current := fs_current s + fs_step;
                                     N_current := N_current s |})]))
  \/ (k = Some "down"%string /\ (fs_step < fs_current s)%Z
      /\ exists line,
           on_key k s =
           ({| fs_current := fs_current s - fs_step; N_current := N_current s |},
            [Printed line;
             UpdatePlot (update_plot {| fs_current := fs_current s - fs_step;
                                        N_current := N_current s |})]))
  \/ (k = Some "right"%string
      /\ exists line,
           on_key k s =
           ({| fs_current := fs_current s; N_current := N_current s + N_step |},
            [Printed line;
             UpdatePlot (update_plot {| fs_current := fs_current s;
                                        N_current := N_current s + N_step |})]))
  \/ (k = Some "left"%string /\ (N_step < N_current s)%Z
      /\ exists line,
           on_key k s =
           ({| fs_current := fs_current s; N_current := N_current s - N_step |},
            [Printed line;
             UpdatePlot (update_plot {| fs_current := fs_current s;
                                        N_current := N_current s - N_step |})]))
  \/ (k = Some "s"%string
      /\ exists filename line,
           on_key k s =
           (s, [SaveFig filename 150; Printed line; UpdatePlot (update_plot s)]))
  \/ (k = Some "q"%string /\ on_key k s = (s, [CloseFig]))
  \/ ((k = Some "down"%string /\ (fs_current s <= fs_step)%Z
       \/ k = Some "left"%string /\ (N_current s <= N_step)%Z
       \/ forall name, In name recognized_keys -> k <> Some name)
      /\ on_key k s = (s, [])).
Proof.
  unfold on_key.
  destruct (key_is k "up") eqn:Eup.
  { apply key_is_true in Eup. left. split; [exact Eup | eexists; reflexivity]. }
  destruct (key_is k "down") eqn:Edown.
  { apply key_is_true in Edown. subst k.
    destruct (Z.gtb_spec (fs_current s) fs_step) as [H|H].
    - right; left. split; [reflexivity|]. split; [exact H | eexists; reflexivity].
    - do 6 right. split; [left; split; [reflexivity | exact H] | reflexivity]. }
  destruct (key_is k "right") eqn:Eright.
  { apply key_is_true in Eright. do 2 right; left.
    split; [exact Eright | eexists; reflexivity]. }
  destruct (key_is k "left") eqn:Eleft.
  { apply key_is_true in Eleft. subst k.
    destruct (Z.gtb_spec (N_current s) N_step) as [H|H].
    - do 3 right; left.
      split; [reflexivity|]. split; [exact H | eexists; reflexivity].
    - do 6 right.
      split; [right; left; split; [reflexivity | exact H] | reflexivity]. }
  destruct (key_is k "s") eqn:Es.
  { apply key_is_true in Es. do 4 right; left.
    split; [exact Es | do 2 eexists; reflexivity]. }
  destruct (key_is k "q") eqn:Eq.
  { apply key_is_true in Eq. do 5 right; left. split; [exact Eq | reflexivity]. }
  do 6 right. split; [| reflexivity].
  right; right. intros name Hin.
  apply key_is_false in Eup, Edown, Eright, Eleft, Es, Eq.
  simpl in Hin.
  repeat (destruct Hin as [<- | Hin]; [assumption|]). contradiction.
Qed.

(** A key outside the recognized ones takes the last branch. *)
Lemma on_key_unrecognized k s :
  (forall name, In name recognized_keys -> k <> Some name) ->
  on_key k s = (s, []).
Proof.
  intros Hk.
  assert (H : forall name, In name recognized_keys -> key_is k name = false)
    by (intros name Hin; apply key_is_false, Hk, Hin).
  unfold on_key.
  rewrite (H "up"%string), (H "down"%string), (H "right"%string),
    (H "left"%string), (H "s"%string), (H "q"%string)
    by (simpl; tauto).
  reflexivity.
Qed.

(** ** The status label *)

(** Whenever [update_plot] returns, its titles are these. *)
Lemma update_plot_titles s v :
  update_plot s = Ok v ->
  view_title_status v = title_status (fs_current s)
  /\ view_title_time v =
       ("Time Domain - " ++ title_status (fs_current s) ++ ": Fs="
          ++ str_int (fs_current s) ++ "Hz, N="
          ++ str_int (N_current s))%string
  /\ view_title_freq v =
       ("Frequency Domain - " ++ title_status (fs_current s) ++ ": Fs="
          ++ str_int (fs_current s) ++ "Hz, N="
          ++ str_int (N_current s))%string.
Proof.
  unfold update_plot.
  destruct (update_plot_arrays s) as [a|]; [|discriminate]. simpl Py.bind.
  destruct (last_item _) as [t_last|]; [|discriminate]. simpl Py.bind.
  destruct (stem _ _) as [[]|]; [|discriminate]. simpl Py.bind.
  destruct (fit_curve _ _) as [c|]; [|discriminate]. simpl Py.bind.
  intros [= <-]. cbn. auto.
Qed.

(** C4.  For every sampling frequency, the two titles a recompute sets
    carry the label "Undersampling" exactly when fs < 2 f2 = 2200 Hz and
    "Proper Sampling" otherwise; and with two samples or more and a positive
    sampling frequency the recompute does set them. *)
Theorem C4_status_label (s : session) :
  ((2 <= N_current s)%Z -> (0 < fs_current s)%Z ->
   exists v, update_plot s = Ok v)
  /\ (forall v,
        update_plot s = Ok v ->
        view_title_time v =
          ("Time Domain - " ++ view_title_status v ++ ": Fs="
             ++ str_int (fs_current s) ++ "Hz, N="
             ++ str_int (N_current s))%string
        /\ view_title_freq v =
             ("Frequency Domain - " ++ view_title_status v ++ ": Fs="
                ++ str_int (fs_current s) ++ "Hz, N="
                ++ str_int (N_current s))%string
        /\ (view_title_status v = "Undersampling"%string
            <-> (fs_current s < 2200)%Z)
        /\ (view_title_status v = "Proper Sampling"%string
            <-> (2200 <= fs_current s)%Z))
  /\ (2 * f2 = 2200)%Z.
Proof.
  split; [| split; [| reflexivity]].
  - intros HN Hfs.
    destruct (update_plot_shows_arrays s HN Hfs) as (a & v & _ & E & _).
    exists v. exact E.
  - intros v E.
    destruct (update_plot_titles s v E) as (Hst & Ht & Hf).
    rewrite Ht, Hf, Hst.
    repeat split; try reflexivity;
      destruct (title_status_cases (fs_current s)) as [[H ->] | [H ->]];
      change (2 * f2)%Z with 2200%Z in H;
      try (intros; lia); try (intros; reflexivity); intros; discriminate.
Qed.

Lemma C4_status_label_witness :
  exists v,
    update_plot {| fs_current := 1500; N_current := 1000 |} = Ok v
    /\ view_title_status v = "Undersampling"%string
    /\ view_title_time v = "Time Domain - Undersampling: Fs=1500Hz, N=1000"%string.
Proof.
  destruct (C4_status_label {| fs_current := 1500; N_current := 1000 |})
    as (Hret & Hlab & _).
  destruct Hret as [v E].
  - simpl. lia.
  - simpl. lia.
  - destruct (Hlab v E) as (Ht & _ & [_ Hu] & _).
    exists v. split; [exact E|].
    assert (Hs : view_title_status v = "Undersampling"%string)
      by (apply Hu; simpl; lia).
    split; [exact Hs|]. rewrite Ht, Hs. reflexivity.
Defined.

(** ** Invariants of the session *)

(** The state after a list of key events, each handled by [on_key]. *)
Lemma reachable_after (keys : list (option string)) (s : session) :
  reachable s -> reachable (fold_left (fun s k => fst (on_key k s)) keys s).
Proof.
  revert s; induction keys as [|k keys IH]; intros s Hs; simpl.
  - exact Hs.
  - apply IH. apply reachable_key. exact Hs.
Qed.

(** The session ends in a reachable state, whatever the key events. *)
Lemma handle_events_reachable (events : list (option string)) (s : session) :
  reachable s -> reachable (fst (handle_events events s)).
Proof.
  revert s; induction events as [|k events IH]; intros s Hs; simpl.
  - exact Hs.
  - pose proof (reachable_key k s Hs) as Hk.
    destruct (on_key k s) as [s1 out1]. simpl in Hk.
    destruct (key_is k "q"); [exact Hk|].
    specialize (IH s1 Hk).
    destruct (handle_events events s1) as [s2 out2]. exact IH.
Qed.

Lemma interactive_experiment_reachable (events : list (option string)) :
  reachable (fst (interactive_experiment events)).
Proof.
  unfold interactive_experiment.
  pose proof (handle_events_reachable events session_init reachable_init) as H.
  destruct (handle_events events session_init) as [s out]. exact H.
Qed.

(** What [on_key] does to the two variables. *)
Lemma on_key_state k s :
  let s' := fst (on_key k s) in
  (fs_current s' = fs_current s + fs_step /\ N_current s' = N_current s)%Z
  \/ (fs_current s' = fs_current s - fs_step /\ N_current s' = N_current s
      /\ fs_step < fs_current s)%Z
  \/ (fs_current s' = fs_current s /\ N_current s' = N_current s + N_step)%Z
  \/ (fs_current s' = fs_current s /\ N_current s' = N_current s - N_step
      /\ N_step < N_current s)%Z
  \/ s' = s.
Proof.
  destruct (on_key_cases k s)
    as [(_ & l & E) | [(_ & H & l & E) | [(_ & l & E) | [(_ & H & l & E)
       | [(_ & f & l & E) | [(_ & E) | (_ & E)]]]]]];
    rewrite E; cbn [fst fs_current N_current]; auto 10.
Qed.

(** C5.  In every state reachable by key events from the initial one both
    samplingFrequency and sampleCount are strictly positive.  A decrease
    applies only when the current value exceeds one step (and then takes one
    step off); otherwise, and so at exactly one step, the event changes
    nothing.  Both floors are reached: seven decreases of the frequency and
    nine of the count lead to (500, 100). *)
Theorem C5_parameters_stay_positive :
  (forall s, reachable s -> (0 < fs_current s)%Z /\ (0 < N_current s)%Z)
  /\ (forall s, (fs_step < fs_current s)%Z ->
        fst (on_key (Some "down"%string) s)
        = {| fs_current := fs_current s - fs_step; N_current := N_current s |})
  /\ (forall s, (fs_current s <= fs_step)%Z ->
        on_key (Some "down"%string) s = (s, []))
  /\ (forall s, (N_step < N_current s)%Z ->
        fst (on_key (Some "left"%string) s)
        = {| fs_current := fs_current s; N_current := N_current s - N_step |})
  /\ (forall s, (N_current s <= N_step)%Z ->
        on_key (Some "left"%string) s = (s, []))
  /\ (forall s, fs_current s = fs_step ->
        fs_current (fst (on_key (Some "down"%string) s)) = fs_current s)
  /\ (forall s, N_current s = N_step ->
        N_current (fst (on_key (Some "left"%string) s)) = N_current s)
  /\ reachable {| fs_current := fs_step; N_current := N_step |}.
Proof.
  assert (Hdown : forall s, (fs_current s <= fs_step)%Z ->
                            on_key (Some "down"%string) s = (s, [])).
  { intros s H. unfold on_key. cbn [key_is String.eqb Ascii.eqb Bool.eqb andb].
    destruct (Z.gtb_spec (fs_current s) fs_step); [lia | reflexivity]. }
  assert (Hleft : forall s, (N_current s <= N_step)%Z ->
                            on_key (Some "left"%string) s = (s, [])).
  { intros s H. unfold on_key. cbn [key_is String.eqb Ascii.eqb Bool.eqb andb].
    destruct (Z.gtb_spec (N_current s) N_step); [lia | reflexivity]. }
  split; [| repeat split].
  - intros s Hs. induction Hs as [|k s Hs [IHf IHN]]; [split; reflexivity|].
    destruct (on_key_state k s)
      as [[-> ->] | [(-> & -> & H) | [[-> ->] | [(-> & -> & H) | ->]]]];
      unfold fs_step, N_step in *; lia.
  - intros s H. unfold on_key. cbn [key_is String.eqb Ascii.eqb Bool.eqb andb].
    destruct (Z.gtb_spec (fs_current s) fs_step); [reflexivity | lia].
  - exact Hdown.
  - intros s H. unfold on_key. cbn [key_is String.eqb Ascii.eqb Bool.eqb andb].
    destruct (Z.gtb_spec (N_current s) N_step); [reflexivity | lia].
  - exact Hleft.
  - intros s H. rewrite Hdown by lia. reflexivity.
  - intros s H. rewrite Hleft by lia. reflexivity.
  - apply (reachable_after
             (repeat (Some "down"%string) 7 ++ repeat (Some "left"%string) 9)
             session_init reachable_init).
Qed.

(** C10.  From fs = 4000 and N = 1000 with steps 500 and 100, in every
    reachable state samplingFrequency is a positive multiple of 500 and
    sampleCount a positive multiple of 100; so sampleCount is even, and the
    session never transforms an odd number of samples. *)
Theorem C10_parameters_are_multiples_of_the_steps (s : session) :
  reachable s ->
  (exists a, (0 < a)%Z /\ fs_current s = (500 * a)%Z)
  /\ (exists b, (0 < b)%Z /\ N_current s = (100 * b)%Z)
  /\ Z.even (N_current s) = true.
Proof.
  intros Hs.
  assert (H : (exists a, (0 < a)%Z /\ fs_current s = (500 * a)%Z)
              /\ (exists b, (0 < b)%Z /\ N_current s = (100 * b)%Z)).
  { induction Hs as [|k s Hs [(a & Ha & IHf) (b & Hb & IHN)]].
    - split; [exists 8%Z | exists 10%Z]; split; reflexivity.
    - destruct (on_key_state k s)
        as [[-> ->] | [(-> & -> & H) | [[-> ->] | [(-> & -> & H) | ->]]]];
        unfold fs_step, N_step in *.
      + split; [exists (a + 1)%Z | exists b]; lia.
      + split; [exists (a - 1)%Z | exists b]; lia.
      + split; [exists a | exists (b + 1)%Z]; lia.
      + split; [exists a | exists (b - 1)%Z]; lia.
      + split; [exists a | exists b]; lia. }
  destruct H as [Hf (b & Hb & HN)].
  split; [exact Hf|]. split; [exists b; auto|].
  rewrite HN. replace (100 * b)%Z with (2 * (50 * b))%Z by lia.
  apply Z.even_even.
Qed.

Lemma C10_parameters_are_multiples_of_the_steps_witness :
  (exists a, (0 < a)%Z /\ fs_current (fst (on_key (Some "down"%string) session_init)) = (500 * a)%Z)
  /\ (exists b, (0 < b)%Z /\ N_current (fst (on_key (Some "down"%string) session_init)) = (100 * b)%Z)
  /\ Z.even (N_current (fst (on_key (Some "down"%string) session_init))) = true.
Proof.
  apply (C10_parameters_are_multiples_of_the_steps
           (fst (on_key (Some "down"%string) session_init))).
  apply reachable_key. apply reachable_init.
Defined.

(** ** What a key event sets off *)

(** C6, as stated, fails for the save key: after the file is written the
    handler goes on to [update_plot]. *)
Lemma C6_save_redraws :
  redraws (snd (on_key (Some "s"%string) session_init)) = true
  /\ fst (on_key (Some "s"%string) session_init) = session_init.
Proof. split; reflexivity. Qed.

(** C6 (amended).  [update_plot], the full recomputation and the redraw,
    runs after the four parameter adjustments when accepted and after the
    save key, and after nothing else: not after the quit key, a refused
    decrease or any other key. *)
Theorem C6_update_plot_runs_after (k : option string) (s : session) :
  (redraws (snd (on_key k s)) = true
   <-> (k = Some "up"%string
        \/ (k = Some "down"%string /\ (fs_step < fs_current s)%Z)
        \/ k = Some "right"%string
        \/ (k = Some "left"%string /\ (N_step < N_current s)%Z)
        \/ k = Some "s"%string))
  /\ redraws (snd (on_key (Some "q"%string) s)) = false.
Proof.
  split; [| reflexivity].
  destruct (on_key_cases k s)
    as [(Hk & l & E) | [(Hk & H & l & E) | [(Hk & l & E) | [(Hk & H & l & E)
       | [(Hk & f & l & E) | [(Hk & E) | (Hk & E)]]]]]];
    rewrite E; cbn [snd redraws existsb is_update_plot orb];
    (split; [intros Hr | intros Hd]); try reflexivity; try discriminate;
    try (subst k; tauto).
  - subst k. destruct Hd as [Hd | [[Hd _] | [Hd | [[Hd _] | Hd]]]]; discriminate.
  - exfalso.
    destruct Hk as [[-> Hle] | [[-> Hle] | Hk]].
    + destruct Hd as [Hd | [[_ Hd] | [Hd | [[Hd _] | Hd]]]];
        try discriminate; lia.
    + destruct Hd as [Hd | [[Hd _] | [Hd | [[_ Hd] | Hd]]]];
        try discriminate; lia.
    + destruct Hd as [Hd | [[Hd _] | [Hd | [[Hd _] | Hd]]]];
        subst k; (eapply Hk; [| reflexivity]); simpl; tauto.
Qed.

(** C7.  The save key writes one image file, named
    experiment_fs_<fs>_N_<N>.png from the current samplingFrequency and
    sampleCount in decimal, and leaves both unchanged; in the initial state
    the name is experiment_fs_4000_N_1000.png. *)
Theorem C7_save_writes_named_file (s : session) :
  fst (on_key (Some "s"%string) s) = s
  /\ filter is_save (snd (on_key (Some "s"%string) s))
     = [SaveFig ("experiment_fs_" ++ str_int (fs_current s) ++ "_N_"
                   ++ str_int (N_current s) ++ ".png")%string 150]
  /\ filter is_save (snd (on_key (Some "s"%string) session_init))
     = [SaveFig "experiment_fs_4000_N_1000.png"%string 150].
Proof. repeat split. Qed.

(** C8.  A key event other than the six recognized ones does nothing:
    samplingFrequency and sampleCount are unchanged, and there is no
    recomputation, no redraw and no file written. *)
Theorem C8_other_keys_do_nothing (k : option string) (s : session) :
  (forall name, In name recognized_keys -> k <> Some name) ->
  on_key k s = (s, [])
  /\ fs_current (fst (on_key k s)) = fs_current s
  /\ N_current (fst (on_key k s)) = N_current s
  /\ redraws (snd (on_key k s)) = false
  /\ writes_file (snd (on_key k s)) = false.
Proof.
  intros Hk. rewrite (on_key_unrecognized k s Hk). repeat split.
Qed.

Lemma C8_other_keys_do_nothing_witness :
  on_key (Some "x"%string) session_init = (session_init, [])
  /\ fs_current (fst (on_key (Some "x"%string) session_init)) = fs_current session_init
  /\ N_current (fst (on_key (Some "x"%string) session_init)) = N_current session_init
  /\ redraws (snd (on_key (Some "x"%string) session_init)) = false
  /\ writes_file (snd (on_key (Some "x"%string) session_init)) = false.
Proof.
  apply (C8_other_keys_do_nothing (Some "x"%string) session_init).
  intros name Hin. simpl in Hin.
  repeat (destruct Hin as [<- | Hin]; [discriminate|]). contradiction.
Defined.

(** * Further properties of the code *)

(** ** Values of the spectrum *)

Lemma Cabs_nonneg z : (0 <= Cabs z)%R.
Proof. unfold Cabs. apply sqrt_pos. Qed.

Lemma normalized_magnitude_nonneg x N k :
  (1 <= N)%Z -> (0 <= normalized_magnitude x N k)%R.
Proof.
  intros HN. unfold normalized_magnitude, Rdiv.
  apply Rmult_le_pos; [apply Cabs_nonneg|].
  left. apply Rinv_0_lt_compat. apply IZR_lt. lia.
Qed.

Lemma Forall_of_nth (P : R -> Prop) (l : list R) :
  (forall k, (k < List.length l)%nat -> P (nth k l 0%R)) -> Forall P l.
Proof. intros H. apply Forall_nth. intros i d Hi. rewrite (nth_indep l d 0%R Hi). auto. Qed.

(** The ratio [k / N] of a retained bin is below one half. *)
Lemma bin_ratio k N :
  (1 <= N)%Z -> (Z.of_nat k < N / 2)%Z ->
  (0 <= INR k / IZR N < 1 / 2)%R.
Proof.
  intros HN Hk.
  assert (HNpos : (0 < IZR N)%R) by (apply IZR_lt; lia).
  assert (H2k : (2 * INR k + 1 <= IZR N)%R).
  { rewrite INR_IZR_INZ. rewrite <- mult_IZR, <- plus_IZR. apply IZR_le.
    assert (H := Z.div_mod N 2 ltac:(lia)).
    assert (H' := Z.mod_pos_bound N 2 ltac:(lia)). lia. }
  assert (Hk0 : (0 <= INR k)%R) by apply pos_INR.
  split.
  - apply Rmult_le_pos; [exact Hk0 | left; apply Rinv_0_lt_compat; exact HNpos].
  - apply (Rmult_lt_reg_r (IZR N)); [exact HNpos|].
    unfold Rdiv. rewrite Rmult_assoc, Rinv_l by lra. lra.
Qed.

(** With two samples or more and a positive sampling frequency, no
    magnitude of the spectrum is negative, in [analyze_spectrum] and in
    [update_plot]. *)
Theorem magnitudes_nonnegative
    (signal : list R -> list R) (fs : R) (N : Z) (title : string)
    (s : session) :
  (forall t, List.length (signal t) = List.length t) ->
  (2 <= N)%Z -> (0 < fs)%R ->
  (2 <= N_current s)%Z -> (0 < fs_current s)%Z ->
  (exists fig,
      analyze_spectrum signal fs N title = Ok fig
      /\ Forall (fun m => (0 <= m)%R) (fig_magnitude fig))
  /\ (exists v,
        update_plot s = Ok v
        /\ Forall (fun m => (0 <= m)%R) (view_magnitude v)).
Proof.
  intros Hsig HN Hfs HNs Hfss. split.
  - destruct (analyze_spectrum_returns signal Hsig fs N title HN Hfs)
      as (fig & E & _ & _ & Hml & _ & Hm).
    exists fig. split; [exact E|].
    apply Forall_of_nth. intros k Hk. rewrite Hml in Hk. rewrite (Hm k Hk).
    pose proof (normalized_magnitude_nonneg (signal (sample_times fs N)) N k
                  ltac:(lia)).
    destruct (_ && _); lra.
  - destruct (update_plot_returns s HNs Hfss)
      as (v & E & _ & _ & Hml & _ & Hm & _).
    exists v. split; [exact E|].
    apply Forall_of_nth. intros k Hk. rewrite Hml in Hk. rewrite (Hm k Hk).
    pose proof (normalized_magnitude_nonneg
                  (generate_signal (sample_times (IZR (fs_current s)) (N_current s)))
                  (N_current s) k ltac:(lia)).
    destruct (_ && _); lra.
Qed.

Lemma magnitudes_nonnegative_witness :
  (exists fig,
      analyze_spectrum impulse 4000 5 "" = Ok fig
      /\ Forall (fun m => (0 <= m)%R) (fig_magnitude fig))
  /\ (exists v,
        update_plot session_init = Ok v
        /\ Forall (fun m => (0 <= m)%R) (view_magnitude v)).
Proof.
  apply (magnitudes_nonnegative impulse 4000 5 "" session_init impulse_length).
  - lia.
  - lra.
  - cbv [N_current session_init N_init]. lia.
  - cbv [fs_current session_init fs_init]. lia.
Defined.

(** With two samples or more and fs > 0 the frequency axis starts at
    0 Hz, increases strictly from bin to bin and stays below the Nyquist
    frequency fs / 2. *)
Theorem frequency_axis_below_nyquist
    (signal : list R -> list R) (fs : R) (N : Z) (title : string) :
  (forall t, List.length (signal t) = List.length t) ->
  (2 <= N)%Z -> (0 < fs)%R ->
  exists fig,
    analyze_spectrum signal fs N title = Ok fig
    /\ nth 0 (fig_freqs fig) 1%R = 0%R
    /\ (forall k : nat, (Z.of_nat k < N / 2)%Z ->
          (0 <= nth k (fig_freqs fig) 0 < fs / 2)%R)
    /\ (forall j k : nat, (j < k)%nat -> (Z.of_nat k < N / 2)%Z ->
          (nth j (fig_freqs fig) 0 < nth k (fig_freqs fig) 0)%R).
Proof.
  intros Hsig HN Hfs.
  destruct (analyze_spectrum_returns signal Hsig fs N title HN Hfs)
    as (fig & E & _ & Hfl & _ & Hf & _).
  assert (HN1 : (1 <= N)%Z) by lia.
  destruct (half_bounds N HN1) as [Hh _].
  assert (H1 : (1 <= N / 2)%Z) by (apply Z.div_le_lower_bound; lia).
  assert (HNpos : (0 < IZR N)%R) by (apply IZR_lt; lia).
  assert (Hax : forall k, (INR k * fs / IZR N = fs * (INR k / IZR N))%R)
    by (intros k; field; lra).
  exists fig. split; [exact E|]. split; [| split].
  - rewrite (nth_indep _ 1%R 0%R) by lia.
    rewrite Hf by lia. simpl INR. unfold Rdiv. rewrite !Rmult_0_l. reflexivity.
  - intros k Hk. rewrite Hf by lia. rewrite Hax.
    destruct (bin_ratio k N HN1 Hk) as [H0 H2]. split.
    + apply Rmult_le_pos; lra.
    + unfold Rdiv at 2. apply Rmult_lt_compat_l; lra.
  - intros j k Hjk Hk. rewrite !Hf by lia. rewrite !Hax.
    apply Rmult_lt_compat_l; [exact Hfs|].
    unfold Rdiv. apply Rmult_lt_compat_r; [apply Rinv_0_lt_compat; exact HNpos|].
    apply lt_INR. exact Hjk.
Qed.

Lemma frequency_axis_below_nyquist_witness :
  exists fig,
    analyze_spectrum generate_signal 4000 1000 "" = Ok fig
    /\ nth 0 (fig_freqs fig) 1%R = 0%R
    /\ (forall k : nat, (Z.of_nat k < 1000 / 2)%Z ->
          (0 <= nth k (fig_freqs fig) 0 < 4000 / 2)%R)
    /\ (forall j k : nat, (j < k)%nat -> (Z.of_nat k < 1000 / 2)%Z ->
          (nth j (fig_freqs fig) 0 < nth k (fig_freqs fig) 0)%R).
Proof.
  apply (frequency_axis_below_nyquist generate_signal 4000 1000 ""
           generate_signal_length).
  - lia.
  - lra.
Defined.

(** ** The discarded half of the transform *)

Lemma dft_term_mirror n k i xn :
  (0 < n)%nat -> (k <= n)%nat ->
  fst (dft_term n (n - k) i xn) = fst (dft_term n k i xn)
  /\ snd (dft_term n (n - k) i xn) = (- snd (dft_term n k i xn))%R.
Proof.
  intros Hn Hk. unfold dft_term. cbn [fst snd].
  assert (Hn0 : INR n <> 0%R) by (apply not_0_INR; lia).
  assert (E : (2 * PI * INR (n - k) * INR i / INR n
               = - (2 * PI * INR k * INR i / INR n) + 2 * INR i * PI)%R).
  { rewrite minus_INR by exact Hk. field. exact Hn0. }
  rewrite E, cos_period, sin_period, cos_neg, sin_neg. split; ring.
Qed.

(** For real samples bin [n - k] is the complex conjugate of bin [k]. *)
Lemma dft_sum_mirror n k i x :
  (0 < n)%nat -> (k <= n)%nat ->
  fst (dft_sum n (n - k) i x) = fst (dft_sum n k i x)
  /\ snd (dft_sum n (n - k) i x) = (- snd (dft_sum n k i x))%R.
Proof.
  intros Hn Hk. revert i; induction x as [|xn x IH]; intros i.
  - simpl. split; ring.
  - cbn [dft_sum Cplus fst snd].
    destruct (dft_term_mirror n k i xn Hn Hk) as [-> ->].
    destruct (IH (S i)) as [-> ->]. split; ring.
Qed.

Lemma normalized_magnitude_mirror x N k :
  (0 < k < List.length x)%nat ->
  normalized_magnitude x N (List.length x - k) = normalized_magnitude x N k.
Proof.
  intros Hk. unfold normalized_magnitude, Cabs.
  destruct (dft_sum_mirror (List.length x) k 0 x ltac:(lia) ltac:(lia)) as [-> ->].
  do 2 f_equal. ring.
Qed.

(** With two samples or more and fs > 0, each bin the analyzer doubles
    comes out as the sum of the two-sided magnitudes at [k] and at its
    mirror bin [N - k], which the one-sided slice discards; bin 0 is returned
    as it is. *)
Theorem doubled_bin_sums_both_halves
    (signal : list R -> list R) (fs : R) (N : Z) (title : string) :
  (forall t, List.length (signal t) = List.length t) ->
  (2 <= N)%Z -> (0 < fs)%R ->
  exists fig,
    analyze_spectrum signal fs N title = Ok fig
    /\ (forall k : nat, (1 <= Z.of_nat k < N / 2 - 1)%Z ->
          nth k (fig_magnitude fig) 0%R =
          (normalized_magnitude (fig_sampled_signal fig) N k
           + normalized_magnitude (fig_sampled_signal fig) N (Z.to_nat N - k))%R)
    /\ nth 0 (fig_magnitude fig) 0%R
       = normalized_magnitude (fig_sampled_signal fig) N 0.
Proof.
  intros Hsig HN Hfs.
  destruct (analyze_spectrum_returns signal Hsig fs N title HN Hfs)
    as (fig & E & Hs & _ & _ & _ & Hm).
  destruct (half_bounds N ltac:(lia)) as [Hh _].
  assert (Hx : List.length (fig_sampled_signal fig) = Z.to_nat N)
    by (rewrite Hs, Hsig; apply sample_times_length).
  exists fig. split; [exact E|]. split.
  - intros k Hk. rewrite Hm by lia. rewrite <- Hs.
    destruct (Nat.leb_spec 1 k) as [_|]; [|lia].
    destruct (Nat.ltb_spec k (Z.to_nat (N / 2) - 1)) as [_|]; [|lia].
    cbn [andb]. rewrite <- Hx.
    rewrite normalized_magnitude_mirror by lia. ring.
  - assert (1 <= N / 2)%Z by (apply Z.div_le_lower_bound; lia).
    rewrite Hm by lia. rewrite <- Hs. reflexivity.
Qed.

Lemma doubled_bin_sums_both_halves_witness :
  exists fig,
    analyze_spectrum generate_signal 4000 1000 "" = Ok fig
    /\ (forall k : nat, (1 <= Z.of_nat k < 1000 / 2 - 1)%Z ->
          nth k (fig_magnitude fig) 0%R =
          (normalized_magnitude (fig_sampled_signal fig) 1000 k
           + normalized_magnitude (fig_sampled_signal fig) 1000
               (Z.to_nat 1000 - k))%R)
    /\ nth 0 (fig_magnitude fig) 0%R
       = normalized_magnitude (fig_sampled_signal fig) 1000 0.
Proof.
  apply (doubled_bin_sums_both_halves generate_signal 4000 1000 ""
           generate_signal_length).
  - lia.
  - lra.
Defined.

(** ** The sampled signal *)

(** Every value of the signal lies in [-2, 2], hence strictly inside the
    limits [update_plot] puts on the amplitude axis. *)
Theorem samples_within_amplitude_axis (t : list R) :
  Forall (fun y => (-2 <= y <= 2)%R
                   /\ (fst time_ylim < y < snd time_ylim)%R)
         (generate_signal t).
Proof.
  unfold generate_signal. apply Forall_map, Forall_forall. intros x _.
  pose proof (COS_bound (2 * PI * IZR f1 * x + phase)) as [H1 H1'].
  pose proof (COS_bound (2 * PI * IZR f2 * x)) as [H2 H2'].
  unfold time_ylim. cbn [fst snd]. lra.
Qed.

Lemma INR_Z_to_nat q : (0 <= q)%Z -> INR (Z.to_nat q) = IZR q.
Proof. intros Hq. rewrite INR_IZR_INZ, Z2Nat.id by exact Hq. reflexivity. Qed.

(** Sampled at [fs], a tone at [f] cannot be told from one at [f mod fs]. *)
Lemma cos_alias (f fs : Z) (n : nat) (c : R) :
  (0 < fs)%Z -> (0 <= f)%Z ->
  cos (2 * PI * IZR f * (INR n / IZR fs) + c)
  = cos (2 * PI * IZR (f mod fs) * (INR n / IZR fs) + c).
Proof.
  intros Hfs Hf.
  assert (Hfs0 : IZR fs <> 0%R) by (apply IZR_pos_neq; lia).
  assert (Hq : (0 <= f / fs)%Z) by (apply Z.div_pos; lia).
  assert (E : (2 * PI * IZR f * (INR n / IZR fs) + c
               = 2 * PI * IZR (f mod fs) * (INR n / IZR fs) + c
                 + 2 * INR (Z.to_nat (f / fs) * n) * PI)%R).
  { rewrite mult_INR, (INR_Z_to_nat _ Hq).
    rewrite (Z.div_mod f fs) at 1 by lia.
    rewrite plus_IZR, mult_IZR. field. exact Hfs0. }
  rewrite E. apply cos_period.
Qed.

(** Aliasing: with two samples or more and fs > 0, the samples
    [update_plot] transforms and draws are those of the two tones folded to
    [f1 mod fs] and [f2 mod fs]. *)
Theorem sampled_signal_aliases (s : session) :
  (2 <= N_current s)%Z -> (0 < fs_current s)%Z ->
  exists v,
    update_plot s = Ok v
    /\ List.length (view_sampled_signal v) = Z.to_nat (N_current s)
    /\ forall n : nat, (Z.of_nat n < N_current s)%Z ->
         nth n (view_sampled_signal v) 0%R =
         (cos (2 * PI * IZR (f1 mod fs_current s)
                 * (INR n / IZR (fs_current s)) + phase)
          + cos (2 * PI * IZR (f2 mod fs_current s)
                   * (INR n / IZR (fs_current s))))%R.
Proof.
  intros HN Hfs.
  destruct (update_plot_returns s HN Hfs) as (v & E & Hs & _).
  exists v. split; [exact E|]. rewrite Hs. split.
  - rewrite generate_signal_length. apply sample_times_length.
  - intros n Hn. unfold generate_signal.
    rewrite (nth_map_in _ _ _ 0%R) by (rewrite sample_times_length; lia).
    rewrite sample_times_nth by lia.
    rewrite (cos_alias f1 _ n phase Hfs) by (unfold f1; lia).
    f_equal.
    rewrite <- (Rplus_0_r (2 * PI * IZR f2 * _)).
    rewrite (cos_alias f2 _ n 0%R Hfs) by (unfold f2; lia).
    rewrite Rplus_0_r. reflexivity.
Qed.

Lemma sampled_signal_aliases_witness :
  exists v,
    update_plot {| fs_current := 1000; N_current := 100 |} = Ok v
    /\ List.length (view_sampled_signal v) = Z.to_nat 100
    /\ forall n : nat, (Z.of_nat n < 100)%Z ->
         nth n (view_sampled_signal v) 0%R =
         (cos (2 * PI * IZR (f1 mod 1000) * (INR n / 1000) + phase)
          + cos (2 * PI * IZR (f2 mod 1000) * (INR n / 1000)))%R.
Proof.
  apply (sampled_signal_aliases {| fs_current := 1000; N_current := 100 |}).
  - simpl. lia.
  - simpl. lia.
Defined.

(** ** What [update_plot] lays out *)

Lemma last_item_nth {A : Type} (l : list A) (d : A) :
  l <> [] -> last_item l = Ok (nth (List.length l - 1) l d).
Proof.
  intros Hl. unfold last_item.
  assert (Hlen : (0 < List.length l)%nat)
    by (destruct l; simpl; [congruence | lia]).
  pose proof (rev_nth l d Hlen) as H.
  rewrite Nat.sub_1_r in *.
  destruct (rev l) as [|x r] eqn:E.
  - apply (f_equal (@List.length A)) in E. rewrite length_rev in E. simpl in E. lia.
  - simpl in H. rewrite H. reflexivity.
Qed.

Lemma update_plot_arrays_times s a :
  update_plot_arrays s = Ok a ->
  arr_t a = sample_times (IZR (fs_current s)) (N_current s).
Proof.
  unfold update_plot_arrays. fold (sample_times (IZR (fs_current s)) (N_current s)).
  destruct (fft _) as [spectrum|]; [|discriminate]. simpl Py.bind.
  destruct (Py.div 1 _) as [d|]; [|discriminate]. simpl Py.bind.
  destruct (fftfreq _ _) as [freqs|]; [|discriminate]. simpl Py.bind.
  intros [= <-]. reflexivity.
Qed.

(** The parts of the view that do not depend on the transform. *)
Lemma update_plot_layout s v :
  update_plot s = Ok v ->
  view_t v = sample_times (IZR (fs_current s)) (N_current s)
  /\ last_item (view_t v) = Ok (snd (view_time_xlim v))
  /\ fst (view_time_xlim v) = 0%R
  /\ view_sample_points_visible v = (N_current s <=? 100)%Z
  /\ view_x_max v = Rmin (2 * IZR f2) (IZR (fs_current s) / 2).
Proof.
  unfold update_plot.
  destruct (update_plot_arrays s) as [a|] eqn:Ea; [|discriminate].
  simpl Py.bind.
  destruct (last_item _) as [t_last|] eqn:El; [|discriminate]. simpl Py.bind.
  destruct (stem _ _) as [[]|]; [|discriminate]. simpl Py.bind.
  destruct (fit_curve _ _) as [c|]; [|discriminate]. simpl Py.bind.
  intros [= <-]. cbn.
  rewrite (update_plot_arrays_times s a Ea) in *. auto.
Qed.

(** With two samples or more and fs > 0 the time axis runs from 0 to the
    time of the last sample, (N-1)/fs, which is positive. *)
Theorem time_axis_limits (s : session) :
  (2 <= N_current s)%Z -> (0 < fs_current s)%Z ->
  exists v,
    update_plot s = Ok v
    /\ view_time_xlim v
       = (0%R, (IZR (N_current s - 1) / IZR (fs_current s))%R)
    /\ (fst (view_time_xlim v) < snd (view_time_xlim v))%R.
Proof.
  intros HN Hfs.
  destruct (update_plot_returns s HN Hfs) as (v & E & _).
  destruct (update_plot_layout s v E) as (Ht & Hl & H0 & _).
  exists v. split; [exact E|].
  assert (Hlast : snd (view_time_xlim v)
                  = (IZR (N_current s - 1) / IZR (fs_current s))%R).
  { rewrite Ht in Hl.
    rewrite (last_item_nth _ 0%R) in Hl
      by (apply nonempty_of_length; rewrite sample_times_length; lia).
    injection Hl as <-.
    rewrite sample_times_length, sample_times_nth by lia.
    rewrite INR_IZR_INZ. do 2 f_equal. lia. }
  split.
  - destruct (view_time_xlim v) as [a b]. simpl in *. congruence.
  - rewrite H0, Hlast. apply Rdiv_lt_0_compat; apply IZR_lt; lia.
Qed.

Lemma time_axis_limits_witness :
  exists v,
    update_plot session_init = Ok v
    /\ view_time_xlim v
       = (0%R, (IZR (N_current session_init - 1)
                / IZR (fs_current session_init))%R)
    /\ (fst (view_time_xlim v) < snd (view_time_xlim v))%R.
Proof.
  apply (time_axis_limits session_init).
  - cbv [N_current session_init N_init]. lia.
  - cbv [fs_current session_init fs_init]. lia.
Defined.

(** With two samples or more and fs > 0, the frequency axis ends at the
    smaller of 2 f2 and fs / 2, so the reference line at f2 falls inside it
    exactly when the titles say "Proper Sampling"; while undersampling it
    lies beyond the axis. *)
Theorem f2_line_visible_iff_proper (s : session) :
  (2 <= N_current s)%Z -> (0 < fs_current s)%Z ->
  exists v,
    update_plot s = Ok v
    /\ (view_x_max v <= 2 * IZR f2)%R
    /\ (view_x_max v <= IZR (fs_current s) / 2)%R
    /\ ((IZR f2 <= view_x_max v)%R
        <-> view_title_status v = "Proper Sampling"%string)
    /\ ((view_x_max v < IZR f2)%R
        <-> view_title_status v = "Undersampling"%string).
Proof.
  intros HN Hfs.
  destruct (update_plot_returns s HN Hfs)
    as (v & E & _ & _ & _ & _ & _ & Hst & _).
  destruct (update_plot_layout s v E) as (_ & _ & _ & _ & Hx).
  exists v. split; [exact E|]. rewrite Hx, Hst.
  unfold Rmin. change (IZR f2) with 1100%R.
  destruct (title_status_cases (fs_current s)) as [[H ->] | [H ->]];
    change (2 * f2)%Z with 2200%Z in H.
  - assert (Hr : (IZR (fs_current s) < 2200)%R) by (apply IZR_lt; exact H).
    destruct (Rle_dec (2 * 1100) (IZR (fs_current s) / 2));
      repeat split; intros; try discriminate; try reflexivity; lra.
  - assert (Hr : (2200 <= IZR (fs_current s))%R) by (apply IZR_le; exact H).
    destruct (Rle_dec (2 * 1100) (IZR (fs_current s) / 2));
      repeat split; intros; try discriminate; try reflexivity; lra.
Qed.

Lemma f2_line_visible_iff_proper_witness :
  exists v,
    update_plot {| fs_current := 1500; N_current := 1000 |} = Ok v
    /\ (view_x_max v <= 2 * IZR f2)%R
    /\ (view_x_max v <= 1500 / 2)%R
    /\ ((IZR f2 <= view_x_max v)%R
        <-> view_title_status v = "Proper Sampling"%string)
    /\ ((view_x_max v < IZR f2)%R
        <-> view_title_status v = "Undersampling"%string).
Proof.
  apply (f2_line_visible_iff_proper {| fs_current := 1500; N_current := 1000 |}).
  - simpl. lia.
  - simpl. lia.
Defined.

(** ** The session never leaves its step grid *)

(** The invariant of the reachable states: both variables are positive
    multiples of their steps. *)
Lemma reachable_multiples s :
  reachable s ->
  exists a b, (0 < a)%Z /\ (0 < b)%Z
              /\ fs_current s = (fs_step * a)%Z /\ N_current s = (N_step * b)%Z.
Proof.
  intros Hs. induction Hs as [|k s Hs (a & b & Ha & Hb & IHf & IHN)].
  - exists 8%Z, 10%Z. repeat split; reflexivity.
  - destruct (on_key_state k s)
      as [[-> ->] | [(-> & -> & H) | [[-> ->] | [(-> & -> & H) | ->]]]].
    + exists (a + 1)%Z, b. unfold fs_step in *. lia.
    + exists (a - 1)%Z, b. unfold fs_step in *. lia.
    + exists a, (b + 1)%Z. unfold N_step in *. lia.
    + exists a, (b - 1)%Z. unfold N_step in *. lia.
    + exists a, b. auto.
Qed.

Lemma reachable_bounds s :
  reachable s -> (500 <= fs_current s)%Z /\ (100 <= N_current s)%Z.
Proof.
  intros Hs. destruct (reachable_multiples s Hs) as (a & b & Ha & Hb & -> & ->).
  unfold fs_step, N_step. lia.
Qed.

Lemma reachable_update_plot_ok s :
  reachable s -> exists v, update_plot s = Ok v.
Proof.
  intros Hs. destruct (reachable_bounds s Hs) as [Hf HN].
  destruct (update_plot_returns s ltac:(lia) ltac:(lia)) as (v & E & _).
  exists v. exact E.
Qed.

(** In every reachable state the curve over the stems is the smoothing
    spline (there are at least 50 bins), and the sample-point markers are
    shown exactly when sampleCount is at its floor, one step. *)
Theorem session_plot_branches (s : session) :
  reachable s ->
  exists v,
    update_plot s = Ok v
    /\ (50 <= List.length (view_freqs v))%nat
    /\ fit_method (view_freqs v) = SplineFit
    /\ (view_sample_points_visible v = true <-> N_current s = N_step).
Proof.
  intros Hs.
  destruct (reachable_multiples s Hs) as (a & b & Ha & Hb & Hf & HN).
  unfold fs_step, N_step in *.
  destruct (update_plot_returns s ltac:(lia) ltac:(lia))
    as (v & E & _ & Hfl & _).
  destruct (update_plot_layout s v E) as (_ & _ & _ & Hvis & _).
  assert (Hlen : (50 <= List.length (view_freqs v))%nat).
  { rewrite Hfl.
    assert (50 <= N_current s / 2)%Z by (apply Z.div_le_lower_bound; lia).
    lia. }
  exists v. split; [exact E|]. split; [exact Hlen|]. split.
  - unfold fit_method.
    destruct (Nat.ltb_spec 3 (List.length (view_freqs v))); [|lia].
    destruct (Nat.ltb_spec 10 (List.length (view_freqs v))); [reflexivity|lia].
  - rewrite Hvis, Z.leb_le. lia.
Qed.

Lemma session_plot_branches_witness :
  exists v,
    update_plot session_init = Ok v
    /\ (50 <= List.length (view_freqs v))%nat
    /\ fit_method (view_freqs v) = SplineFit
    /\ (view_sample_points_visible v = true <-> N_current session_init = N_step).
Proof.
  apply (session_plot_branches session_init). apply reachable_init.
Defined.

(** In every reachable state sampleCount is even, and the doubling in
    [update_plot] is the contract's: every retained bin is doubled except
    bin 0 and the last retained one. *)
Theorem session_doubling_follows_contract (s : session) :
  reachable s ->
  exists v,
    update_plot s = Ok v
    /\ forall k : nat, (Z.of_nat k < N_current s / 2)%Z ->
         nth k (view_magnitude v) 0%R =
         if doubled_by_contract (N_current s) k
         then (2 * normalized_magnitude (view_sampled_signal v) (N_current s) k)%R
         else normalized_magnitude (view_sampled_signal v) (N_current s) k.
Proof.
  intros Hs.
  destruct (reachable_multiples s Hs) as (a & b & Ha & Hb & Hf & HN).
  unfold fs_step, N_step in *.
  destruct (update_plot_returns s ltac:(lia) ltac:(lia))
    as (v & E & Hsig & _ & _ & _ & Hm & _).
  assert (Hev : Z.even (N_current s) = true).
  { rewrite HN. replace (100 * b)%Z with (2 * (50 * b))%Z by lia.
    apply Z.even_even. }
  exists v. split; [exact E|]. intros k Hk.
  rewrite Hm by lia. rewrite Hsig.
  rewrite <- (doubled_by_slice_even (N_current s) k Hev Hk). reflexivity.
Qed.

Lemma session_doubling_follows_contract_witness :
  exists v,
    update_plot session_init = Ok v
    /\ forall k : nat, (Z.of_nat k < N_current session_init / 2)%Z ->
         nth k (view_magnitude v) 0%R =
         if doubled_by_contract (N_current session_init) k
         then (2 * normalized_magnitude (view_sampled_signal v)
                      (N_current session_init) k)%R
         else normalized_magnitude (view_sampled_signal v)
                (N_current session_init) k.
Proof.
  apply (session_doubling_follows_contract session_init). apply reachable_init.
Defined.

(** ** The thresholds of the curve fit *)

(** With fs > 0 and by the sample count: from 2 to 7 samples no curve is
    fitted, from 8 to 21 samples the quadratic interpolation is used, from 22
    samples on the smoothing spline; each fit is made without an error. *)
Theorem fit_method_by_sample_count
    (signal : list R -> list R) (fs : R) (N : Z) (title : string) :
  (forall t, List.length (signal t) = List.length t) ->
  (2 <= N)%Z -> (0 < fs)%R ->
  exists fig,
    analyze_spectrum signal fs N title = Ok fig
    /\ fit_curve (fig_freqs fig) (fig_magnitude fig)
       = Ok (fit_method (fig_freqs fig))
    /\ (fit_method (fig_freqs fig) = NoFit <-> (N <= 7)%Z)
    /\ (fit_method (fig_freqs fig) = QuadraticInterp <-> (8 <= N <= 21)%Z)
    /\ (fit_method (fig_freqs fig) = SplineFit <-> (22 <= N)%Z).
Proof.
  intros Hsig HN Hfs.
  destruct (analyze_spectrum_returns signal Hsig fs N title HN Hfs)
    as (fig & E & _ & Hfl & _ & Hf & _).
  exists fig. split; [exact E|]. split.
  - apply fit_curve_nondecreasing.
    apply (axis_nondecreasing _ fs N); [lia | exact Hfs |].
    intros k Hk. apply Hf. lia.
  - assert (H := Z.div_mod N 2 ltac:(lia)).
    assert (H' := Z.mod_pos_bound N 2 ltac:(lia)).
    unfold fit_method. rewrite Hfl.
    destruct (Nat.ltb_spec 3 (Z.to_nat (N / 2)));
      [destruct (Nat.ltb_spec 10 (Z.to_nat (N / 2)))|];
      repeat split; intros; try discriminate; try reflexivity; lia.
Qed.

Lemma fit_method_by_sample_count_witness :
  exists fig,
    analyze_spectrum generate_signal 4000 12 "" = Ok fig
    /\ fit_curve (fig_freqs fig) (fig_magnitude fig)
       = Ok (fit_method (fig_freqs fig))
    /\ (fit_method (fig_freqs fig) = NoFit <-> (12 <= 7)%Z)
    /\ (fit_method (fig_freqs fig) = QuadraticInterp <-> (8 <= 12 <= 21)%Z)
    /\ (fit_method (fig_freqs fig) = SplineFit <-> (22 <= 12)%Z).
Proof.
  apply (fit_method_by_sample_count generate_signal 4000 12 ""
           generate_signal_length).
  - lia.
  - lra.
Defined.

(** ** Keys that undo each other *)

Lemma on_key_up s :
  fst (on_key (Some "up"%string) s)
  = {| fs_current := fs_current s + fs_step; N_current := N_current s |}.
Proof. reflexivity. Qed.

Lemma on_key_right s :
  fst (on_key (Some "right"%string) s)
  = {| fs_current := fs_current s; N_current := N_current s + N_step |}.
Proof. reflexivity. Qed.

Lemma on_key_down s :
  fst (on_key (Some "down"%string) s)
  = if (fs_current s >? fs_step)%Z
    then {| fs_current := fs_current s - fs_step; N_current := N_current s |}
    else s.
Proof.
  unfold on_key. cbn [key_is String.eqb Ascii.eqb Bool.eqb andb].
  destruct (fs_current s >? fs_step)%Z; reflexivity.
Qed.

Lemma on_key_left s :
  fst (on_key (Some "left"%string) s)
  = if (N_current s >? N_step)%Z
    then {| fs_current := fs_current s; N_current := N_current s - N_step |}
    else s.
Proof.
  unfold on_key. cbn [key_is String.eqb Ascii.eqb Bool.eqb andb].
  destruct (N_current s >? N_step)%Z; reflexivity.
Qed.

(** With positive parameters, as in every reachable state, an increase
    followed by the matching decrease restores the state; a decrease
    followed by the matching increase restores it exactly when the decrease
    was applied, that is above one step. *)
Theorem opposite_keys_round_trip (s : session) :
  (0 < fs_current s)%Z -> (0 < N_current s)%Z ->
  fst (on_key (Some "down"%string) (fst (on_key (Some "up"%string) s))) = s
  /\ fst (on_key (Some "left"%string) (fst (on_key (Some "right"%string) s))) = s
  /\ (fst (on_key (Some "up"%string) (fst (on_key (Some "down"%string) s))) = s
      <-> (fs_step < fs_current s)%Z)
  /\ (fst (on_key (Some "right"%string) (fst (on_key (Some "left"%string) s))) = s
      <-> (N_step < N_current s)%Z).
Proof.
  intros Hf HN. destruct s as [fs N]. cbn [fs_current N_current] in *.
  rewrite !on_key_up, !on_key_right, !on_key_down, !on_key_left.
  cbn [fs_current N_current]. unfold fs_step, N_step.
  repeat split.
  - destruct (Z.gtb_spec (fs + 500) 500); [f_equal; lia | lia].
  - destruct (Z.gtb_spec (N + 100) 100); [f_equal; lia | lia].
  - destruct (Z.gtb_spec fs 500) as [Hg|Hg]; [lia|].
    cbn [fs_current N_current]. intros [= Heq]. lia.
  - intros Hgt. destruct (Z.gtb_spec fs 500) as [Hg|Hg]; [|lia].
    cbn [fs_current N_current]. f_equal. lia.
  - destruct (Z.gtb_spec N 100) as [Hg|Hg]; [lia|].
    cbn [fs_current N_current]. intros [= Heq]. lia.
  - intros Hgt. destruct (Z.gtb_spec N 100) as [Hg|Hg]; [|lia].
    cbn [fs_current N_current]. f_equal. lia.
Qed.

Lemma opposite_keys_round_trip_witness :
  fst (on_key (Some "down"%string)
         (fst (on_key (Some "up"%string) session_init))) = session_init
  /\ fst (on_key (Some "left"%string)
            (fst (on_key (Some "right"%string) session_init))) = session_init
  /\ (fst (on_key (Some "up"%string)
             (fst (on_key (Some "down"%string) session_init))) = session_init
      <-> (fs_step < fs_current session_init)%Z)
  /\ (fst (on_key (Some "right"%string)
             (fst (on_key (Some "left"%string) session_init))) = session_init
      <-> (N_step < N_current session_init)%Z).
Proof.
  apply (opposite_keys_round_trip session_init).
  - cbv [fs_current session_init fs_init]. lia.
  - cbv [N_current session_init N_init]. lia.
Defined.

(** ** File names *)

Lemma str_int_injective a b : str_int a = str_int b -> a = b.
Proof.
  unfold str_int. intros H.
  assert (Hparse : forall z,
             NilZero.int_of_string (NilZero.string_of_int (Z.to_int z))
             = Some (Z.to_int z)).
  { intros z. apply NilZero.isi; destruct z; simpl; try discriminate;
      intros [= E]; exact (DecimalPos.Unsigned.to_uint_nonnil _ E). }
  apply DecimalZ.to_int_inj.
  pose proof (Hparse a) as Ha. rewrite H, Hparse in Ha. congruence.
Qed.

Lemma string_of_uint_numeral d :
  string_forall numeral_char (NilEmpty.string_of_uint d) = true.
Proof. induction d; simpl; try rewrite IHd; reflexivity. Qed.

Lemma str_int_numeral z : string_forall numeral_char (str_int z) = true.
Proof.
  unfold str_int.
  assert (H : forall d, string_forall numeral_char (NilZero.string_of_uint d) = true)
    by (intros d; destruct d; try reflexivity; apply string_of_uint_numeral).
  destruct (Z.to_int z) as [d|d]; simpl; [apply H | rewrite H; reflexivity].
Qed.

(** Two strings free of a delimiter, each followed by it, split alike. *)
Lemma append_delimiter_injective (c : ascii) (a a' r r' : string) :
  string_forall (fun x => negb (Ascii.eqb x c)) a = true ->
  string_forall (fun x => negb (Ascii.eqb x c)) a' = true ->
  (a ++ String c r)%string = (a' ++ String c r')%string ->
  a = a' /\ r = r'.
Proof.
  revert a'; induction a as [|x a IH]; intros [|x' a'] Ha Ha' E; simpl in *.
  - injection E as <-. auto.
  - injection E as <- _. rewrite Ascii.eqb_refl in Ha'. discriminate.
  - injection E as -> _. rewrite Ascii.eqb_refl in Ha. discriminate.
  - injection E as <- E.
    apply andb_true_iff in Ha as [_ Ha]. apply andb_true_iff in Ha' as [_ Ha'].
    destruct (IH a' Ha Ha' E) as [-> ->]. auto.
Qed.

Lemma string_forall_weaken (p q : ascii -> bool) s :
  (forall c, p c = true -> q c = true) ->
  string_forall p s = true -> string_forall q s = true.
Proof.
  intros Hpq. induction s as [|c s IH]; simpl; [reflexivity|].
  rewrite !andb_true_iff. intros [Hc Hs]. auto.
Qed.

Lemma save_filename_injective fs N fs' N' :
  save_filename fs N = save_filename fs' N' -> fs = fs' /\ N = N'.
Proof.
  unfold save_filename. intros E.
  assert (Hu : forall z, string_forall (fun x => negb (Ascii.eqb x "_")) (str_int z) = true).
  { intros z. apply (string_forall_weaken numeral_char); [|apply str_int_numeral].
    intros c Hc. apply andb_true_iff in Hc as [Hc _]. exact Hc. }
  assert (Hd : forall z, string_forall (fun x => negb (Ascii.eqb x ".")) (str_int z) = true).
  { intros z. apply (string_forall_weaken numeral_char); [|apply str_int_numeral].
    intros c Hc. apply andb_true_iff in Hc as [_ Hc]. exact Hc. }
  cbn [String.append] in E. injection E as E.
  change (str_int fs ++ String "_" ("N_" ++ str_int N ++ ".png")
          = str_int fs' ++ String "_" ("N_" ++ str_int N' ++ ".png"))%string in E.
  apply append_delimiter_injective in E as [Ef E]; [| apply Hu | apply Hu].
  cbn [String.append] in E. injection E as E.
  change (str_int N ++ String "." "png"
          = str_int N' ++ String "." "png")%string in E.
  apply append_delimiter_injective in E as [EN _]; [| apply Hd | apply Hd].
  split; apply str_int_injective; assumption.
Qed.

(** The save key names its file after the state, and two states give the
    same name only if they are the same state: saving at other settings
    never overwrites an earlier image. *)
Theorem save_file_identifies_state (s s' : session) :
  filter is_save (snd (on_key (Some "s"%string) s))
  = [SaveFig (save_filename (fs_current s) (N_current s)) 150]
  /\ (filter is_save (snd (on_key (Some "s"%string) s))
      = filter is_save (snd (on_key (Some "s"%string) s'))
      <-> s = s').
Proof.
  split; [reflexivity|]. split.
  - change (filter is_save (snd (on_key (Some "s"%string) s)))
      with [SaveFig (save_filename (fs_current s) (N_current s)) 150].
    change (filter is_save (snd (on_key (Some "s"%string) s')))
      with [SaveFig (save_filename (fs_current s') (N_current s')) 150].
    intros E.
    apply (f_equal (fun out => match out with
                               | SaveFig name _ :: _ => name
                               | _ => EmptyString
                               end)) in E.
    apply save_filename_injective in E as [Ef EN].
    destruct s, s'. simpl in *. congruence.
  - intros ->. reflexivity.
Qed.

(** ** The fixed experiments *)

(** The eight analyses of [run_standard_experiment] are all made with
    two samples or more and a positive sampling frequency; their figures
    have 500, 500, 500, 50, 250, 1000, 500 and 500 bins, and the eight images
    are given eight different names, so no image replaces another. *)
Theorem standard_experiment_completes :
  exists saved,
    run_standard_experiment = Ok saved
    /\ map fst saved =
       ["experiment_fs_2500_N_1000.png"; "experiment_fs_4000_N_1000.png";
        "experiment_fs_8000_N_1000.png"; "experiment_fs_4000_N_100.png";
        "experiment_fs_4000_N_500.png"; "experiment_fs_4000_N_2000.png";
        "experiment_undersampling_fs_1500_N_1000.png";
        "experiment_undersampling_fs_1800_N_1000.png"]%string
    /\ NoDup (map fst saved)
    /\ map (fun p => List.length (fig_freqs (snd p))) saved
       = [500; 500; 500; 50; 250; 1000; 500; 500]%nat.
Proof.
  unfold run_standard_experiment. cbn [for_each].
  repeat match goal with
         | |- context [analyze_spectrum generate_signal ?fs ?N ?t] =>
             destruct (analyze_spectrum_returns generate_signal
                         generate_signal_length fs N t ltac:(lia) ltac:(lra))
               as (? & -> & _ & ? & _)
         end.
  cbn [Py.bind app]. eexists. split; [reflexivity|].
  assert (Hnames :
    forall (A : Type) (f1 f2 f3 f4 f5 f6 f7 f8 : A) n1 n2 n3 n4 n5 n6 n7 n8,
      map fst [(n1, f1); (n2, f2); (n3, f3); (n4, f4);
               (n5, f5); (n6, f6); (n7, f7); (n8, f8)]
      = [n1; n2; n3; n4; n5; n6; n7; n8] :> list string) by reflexivity.
  rewrite Hnames.
  split; [reflexivity|]. split.
  - repeat (constructor; [simpl; intuition discriminate|]). constructor.
  - cbn [map snd].
    repeat match goal with
           | H : List.length (fig_freqs _) = _ |- _ => rewrite H; clear H
           end.
    reflexivity.
Qed.

(** ** When the analyzer raises *)

(** [analyze_spectrum] raises ValueError when there is no sample (the
    transform refuses the empty array), when there is one sample (no bin is
    retained and the stems cannot be drawn), and when the sampling frequency
    is negative and there are 22 samples or more (the axis decreases, and the
    spline, fitted from 11 bins on, refuses it). *)
Theorem analyze_spectrum_value_errors
    (signal : list R -> list R) (fs : R) (N : Z) (title : string) :
  (forall t, List.length (signal t) = List.length t) ->
  (N <= 0)%Z \/ (N = 1%Z /\ fs <> 0%R) \/ ((22 <= N)%Z /\ (fs < 0)%R) ->
  analyze_spectrum signal fs N title = Raise ValueError.
Proof.
  intros Hsig [HN | [[-> Hfs] | [HN Hfs]]].
  - apply (analyze_spectrum_no_sample signal Hsig). exact HN.
  - apply (analyze_spectrum_single_sample signal Hsig). exact Hfs.
  - apply (analyze_spectrum_decreasing_axis signal Hsig); assumption.
Qed.

Lemma analyze_spectrum_value_errors_witness :
  analyze_spectrum generate_signal (-500) 22 "" = Raise ValueError.
Proof.
  apply (analyze_spectrum_value_errors generate_signal (-500) 22 ""
           generate_signal_length).
  right; right. split; [lia | lra].
Defined.
